(** * Layered package repositories: resolution and configuration merge

    A shallow embedding of [repository/repository.go].  The file holds two Go
    packages: [repository] (the indexed repository layers kept in the
    key-value store) and [install] (the package catalog, version resolution,
    descriptor assembly, default extraction and configuration merge).

    Conventions of the embedding.
    - A Go function that can panic, or that returns a [(value, error)] pair,
      returns a [result]: [Ok v] is [(v, nil)], [Err e] is a non-nil error
      and [Panic] is a run-time panic.
    - Go maps are [gmap]s.  The order in which [range] visits a map is not
      specified by the language; every function whose result can depend on
      that order is a relation that holds for each order the run time may
      pick.
    - [sort.Sort] is not stable; it is specified by what it guarantees
      (a permutation in which no element is [Less] than an earlier one).
    - Strings are byte strings, as in Go.  The functions of the standard
      library that work on bytes ([strings.Split], [strings.TrimSuffix],
      [strconv.Atoi], [fmt.Sprintf]) are written out.  Those that read a
      string as UTF-8 text with the tables of Unicode ([strings.EqualFold],
      [strings.TrimSpace], [strings.ToUpper], the conversion to runes) are
      parameters, as are [path.Join] and [json.Unmarshal]: every theorem
      holds for the functions of the library.  The examples run on ASCII
      text, with the restriction of these functions to ASCII. *)

From Stdlib Require Import ZArith QArith String Ascii List.
From stdpp Require Import gmap strings pretty sorting.

Set Warnings "-register-all".
#[local] Open Scope string_scope.
#[local] Open Scope Z_scope.

(** ** Outcomes of a Go call *)

Definition error := string.

Inductive result (A : Type) : Type :=
| Ok (a : A)
| Err (e : error)
| Panic.
Arguments Ok {A} a.
Arguments Err {A} e.
Arguments Panic {A}.

#[global] Instance result_ret : MRet result := fun A a => Ok a.
#[global] Instance result_bind : MBind result := fun A B f m =>
  match m with
  | Ok a => f a
  | Err e => Err e
  | Panic => Panic
  end.
#[global] Instance result_fmap : FMap result := fun A B f m =>
  match m with
  | Ok a => Ok (f a)
  | Err e => Err e
  | Panic => Panic
  end.

(** [for _, x := range l { acc = f acc x }] where the body may fail. *)
Fixpoint foldlM {A B : Type} (f : B -> A -> result B) (acc : B) (l : list A)
  : result B :=
  match l with
  | [] => Ok acc
  | x :: l' => acc' ← f acc x; foldlM f acc' l'
  end.

(** ** The parts of Go's standard library the program calls *)

Definition bytes := list Byte.byte.

(** [len(b) > 0] *)
Definition nonempty (b : bytes) : bool :=
  match b with
  | [] => false
  | _ :: _ => true
  end.

Module Go.

Fixpoint mapString (f : ascii -> ascii) (s : string) : string :=
  match s with
  | EmptyString => EmptyString
  | String c s' => String (f c) (mapString f s')
  end.

Definition between (lo hi c : ascii) : bool :=
  ((nat_of_ascii lo <=? nat_of_ascii c)%nat && (nat_of_ascii c <=? nat_of_ascii hi)%nat)%bool.

Definition toLower (c : ascii) : ascii :=
  if between "A" "Z" c then ascii_of_nat (nat_of_ascii c + 32) else c.

Definition toUpper (c : ascii) : ascii :=
  if between "a" "z" c then ascii_of_nat (nat_of_ascii c - 32) else c.

(** The functions of package [strings] that depend on the tables of
    Unicode, and the first rune of a string.  [FirstRune s] is
    [string([]rune(s)[0])] for a string [s] that is not empty (the
    conversion of a string that is not empty yields at least one rune). *)
Class Strings := {
  EqualFold : string -> string -> bool;
  TrimSpace : string -> string;
  ToUpper : string -> string;
  FirstRune : string -> string
}.

(** The same functions on ASCII text, where a rune is a byte, the letters
    with two cases are [a] to [z], and white space is tab, line feed,
    vertical tab, form feed, carriage return and space. *)
Definition asciiToUpper (s : string) : string := mapString toUpper s.

Definition asciiEqualFold (s t : string) : bool :=
  bool_decide (mapString toLower s = mapString toLower t).

Definition isSpace (c : ascii) : bool :=
  (between "009" "013" c || bool_decide (c = " "%char))%bool.

Fixpoint trimLeft (s : string) : string :=
  match s with
  | EmptyString => EmptyString
  | String c s' => if isSpace c then trimLeft s' else s
  end.

Definition asciiTrimSpace (s : string) : string :=
  String.rev (trimLeft (String.rev (trimLeft s))).

Definition asciiFirstRune (s : string) : string :=
  match s with
  | EmptyString => EmptyString
  | String c _ => String c EmptyString
  end.

Definition asciiStrings : Strings :=
  {| EqualFold := asciiEqualFold;
     TrimSpace := asciiTrimSpace;
     ToUpper := asciiToUpper;
     FirstRune := asciiFirstRune |}.

(** [strings.TrimSuffix(s, "/")] *)
Definition TrimSuffixSlash (s : string) : string :=
  match String.rev s with
  | String "/" r => String.rev r
  | _ => s
  end.

(** [strings.Split(s, "/")]: never the empty list. *)
Fixpoint SplitSlash (s : string) : list string :=
  match s with
  | EmptyString => [EmptyString]
  | String c s' =>
      if bool_decide (c = "/"%char) then EmptyString :: SplitSlash s'
      else match SplitSlash s' with
           | h :: t => String c h :: t
           | [] => [String c EmptyString]
           end
  end.

Definition digit (c : ascii) : option Z :=
  if between "0" "9" c then Some (Z.of_nat (nat_of_ascii c) - 48) else None.

Fixpoint digits (acc : Z) (s : string) : option Z :=
  match s with
  | EmptyString => Some acc
  | String c s' => d ← digit c; digits (10 * acc + d) s'
  end.

(** [strconv.Atoi] for a 64-bit [int]: an optional sign, at least one
    decimal digit, and a value that fits. *)
Definition Atoi (s : string) : option Z :=
  let '(neg, ds) :=
    match s with
    | String "-" r => (true, r)
    | String "+" r => (false, r)
    | _ => (false, s)
    end in
  match ds with
  | EmptyString => None
  | _ =>
      n ← digits 0 ds;
      let z := if neg : bool then - n else n in
      if bool_decide (- 2 ^ 63 <= z < 2 ^ 63) then Some z else None
  end.

(** [fmt.Sprintf("%d", n)] *)
Definition Sprintd (n : Z) : string := pretty n.

(** [string(b)] and [[]byte(s)] *)
Definition stringOf (b : bytes) : string := string_of_list_byte b.
Definition bytesOf (s : string) : bytes := list_byte_of_string s.

(** [path.Join] joins its elements with a slash and cleans the result. *)
Class PathJoin := Join : list string -> string.

(** [path.Join] on elements that are clean relative paths (no empty, [.] or
    [..] component) or empty: empty elements are dropped and the joined
    path is clean already. *)
Definition joinClean : PathJoin :=
  fun elems => String.concat "/" (filter (fun e => e <> EmptyString) elems).

End Go.

(** ** The key-value store *)

Module consul.

Record KVPair := { Key : string; Value : bytes }.

(** [kv.Get(key, nil)] returns [(pair, meta, err)] and
    [kv.Keys(prefix, separator, nil)] returns [(keys, meta, err)]; the
    program never looks at [meta]. *)
Record KV := {
  Get : string -> option KVPair * option error;
  Keys : string -> string -> list string * option error
}.

End consul.

(** ** Package [repository] *)

Module repository.
Section Repository.
Context `{!Go.PathJoin}.

Definition RepositoryRoot : string := "mantl-install/repository".

Record Repository := { Name : string; Index : Z }.

Definition RepositoryCollection := list Repository.

Definition IsBase (r : Repository) : bool := bool_decide (Index r = 0).

Definition Base (c : RepositoryCollection) : option Repository :=
  head (filter (fun repo => Index repo = 0) c).

Definition Layers (c : RepositoryCollection) : RepositoryCollection :=
  filter (fun repo => IsBase repo = false) c.

Definition PackageIndexKey (r : Repository) : string :=
  Go.Join [RepositoryRoot; Go.Sprintd (Index r); "repo/meta/index.json"].

Definition PackagesKey (r : Repository) : string :=
  Go.Join [RepositoryRoot; Go.Sprintd (Index r); "repo/packages"].

(** [name] returns [("", err)] when the read failed or found nothing; a
    missing key without an error is therefore an empty name, not an
    error. *)
Definition name (client : consul.KV) (idx : Z) : result string :=
  let key := Go.Join [RepositoryRoot; Go.Sprintd idx; "name"] in
  match consul.Get client key with
  | (_, Some err) => Err err
  | (None, None) => Ok EmptyString
  | (Some kp, None) => Ok (Go.stringOf (consul.Value kp))
  end.

(** The last path element of every listed key, when it reads as an
    integer. *)
Definition parseIndexes (keys : list string) : list Z :=
  omap (fun key => Go.Atoi (List.last (Go.SplitSlash (Go.TrimSuffixSlash key)) EmptyString))
       keys.

(** [sort.Sort(sort.IntSlice(idxs))]: integers have one sorted
    arrangement, so the algorithm does not matter. *)
Definition sortInts (idxs : list Z) : list Z := merge_sort Z.le idxs.

Definition indexes (client : consul.KV) : result (list Z) :=
  match consul.Keys client (RepositoryRoot ++ "/") "/" with
  | (_, Some err) => Err err
  | (keys, None) => Ok (sortInts (parseIndexes keys))
  end.

(** The loop of [Repositories]: an index whose name cannot be read is
    skipped. *)
Definition named (client : consul.KV) (idxs : list Z) : RepositoryCollection :=
  omap (fun idx =>
          match name client idx with
          | Ok n => Some {| Name := n; Index := idx |}
          | _ => None
          end) idxs.

Definition Repositories (client : consul.KV) : result RepositoryCollection :=
  idxs ← indexes client; Ok (named client idxs).

(** [BaseRepository] returns [(nil, err)] when the read failed or found
    nothing: a missing base without an error is [(nil, nil)]. *)
Definition BaseRepository (client : consul.KV) : result (option Repository) :=
  let key := Go.Join [RepositoryRoot; "0"; "name"] in
  match consul.Get client key with
  | (_, Some err) => Err err
  | (None, None) => Ok None
  | (Some kp, None) => Ok (Some {| Name := Go.stringOf (consul.Value kp); Index := 0 |})
  end.

Definition LayersOf (client : consul.KV) : result RepositoryCollection :=
  repos ← Repositories client; Ok (Layers repos).

End Repository.
End repository.

(** ** Package [install]: data *)

Module install.

(** A decoded JSON document, as [encoding/json] stores it in an
    [interface{}]: [nil], [bool], [float64], [string], [[]interface{}] or
    [map[string]interface{}].  A number read from JSON is a finite binary
    fraction; it is carried as a rational and never inspected. *)
Inductive value : Type :=
| VNull
| VBool (b : bool)
| VNum (n : Q)
| VStr (s : string)
| VArr (l : list value)
| VObj (m : gmap string value).

Module PackageVersion.
Record t := mk { Version : string; Index : string; Supported : bool }.

Definition withSupported (b : bool) (pv : t) : t :=
  {| Version := Version pv; Index := Index pv; Supported := b |}.
End PackageVersion.

(** [packageVersionByMostRecent.Less(i, j)] is [p[j].Index < p[i].Index], the
    byte-wise order of Go strings. *)
Definition Less (pi pj : PackageVersion.t) : bool :=
  String.ltb (PackageVersion.Index pj) (PackageVersion.Index pi).

(** What [sort.Sort] guarantees of the slice it leaves behind. *)
Definition sortSort {A : Type} (less : A -> A -> bool) (l sorted : list A) : Prop :=
  sorted ≡ₚ l /\ StronglySorted (fun x y => less y x = false) sorted.

(** [Versions] maps a version string to a [*PackageVersion]; the program
    stores no nil pointer in it. *)
Module Package.
Record t := mk {
  Name : string;
  Description : string;
  Framework : bool;
  CurrentVersion : string;
  Supported : bool;
  Tags : list string;
  Versions : gmap string PackageVersion.t
}.

Definition withSupported (b : bool) (p : t) : t :=
  {| Name := Name p; Description := Description p; Framework := Framework p;
     CurrentVersion := CurrentVersion p; Supported := b; Tags := Tags p;
     Versions := Versions p |}.

Definition withCurrentVersion (v : string) (p : t) : t :=
  {| Name := Name p; Description := Description p; Framework := Framework p;
     CurrentVersion := v; Supported := Supported p; Tags := Tags p;
     Versions := Versions p |}.

Definition withVersions (vs : gmap string PackageVersion.t) (p : t) : t :=
  {| Name := Name p; Description := Description p; Framework := Framework p;
     CurrentVersion := CurrentVersion p; Supported := Supported p; Tags := Tags p;
     Versions := vs |}.

(** [strings.ToUpper(string([]rune(p.Name)[0]))]: the index panics on the
    empty name, which has no rune. *)
Definition ContainerId `{!Go.Strings} (p : t) : result string :=
  match Name p with
  | EmptyString => Panic
  | String _ _ => Ok (Go.ToUpper (Go.FirstRune (Name p)))
  end.

Definition PackageKey `{!Go.PathJoin} `{!Go.Strings} (p : t) : result string :=
  c ← ContainerId p; Ok (Go.Join [c; Name p]).

Definition PackageVersionKey `{!Go.PathJoin} `{!Go.Strings} (p : t) (index : string) : result string :=
  k ← PackageKey p; Ok (Go.Join [k; index]).

(** The values of [p.Versions] in one fixed order; the slice that
    [PackageVersions] returns holds them in the order of that run. *)
Definition versionList (p : t) : list PackageVersion.t :=
  (map_to_list (Versions p)).*2.

Definition PackageVersions (p : t) (versions : list PackageVersion.t) : Prop :=
  versions ≡ₚ versionList p.

Definition supportedOf (versions : list PackageVersion.t) : list PackageVersion.t :=
  List.filter PackageVersion.Supported versions.

Definition SupportedVersions (p : t) (versions : list PackageVersion.t) : Prop :=
  exists all, PackageVersions p all /\ versions = supportedOf all.

(** [len(p.SupportedVersions()) > 0] is the same for every order. *)
Definition HasSupportedVersion (p : t) : bool :=
  bool_decide (0 < length (supportedOf (versionList p)))%nat.

Definition matches `{!Go.Strings} (version : string) (v : PackageVersion.t) : bool :=
  Go.EqualFold (PackageVersion.Version v) (Go.TrimSpace version).

Definition FindPackageVersion `{!Go.Strings} (p : t) (version : string)
  (found : option PackageVersion.t) : Prop :=
  exists versions, PackageVersions p versions /\
    found = List.find (matches version) versions.

Definition FindLatestPackageVersion (p : t) (found : option PackageVersion.t) : Prop :=
  exists versions sorted, PackageVersions p versions /\
    sortSort Less versions sorted /\ found = head sorted.
End Package.

Definition PackageCollection := list Package.t.

Module packageIndexEntry.
Record t := mk {
  CurrentVersion : string;
  Description : string;
  Framework : bool;
  Name : string;
  Tags : list string;
  Versions : gmap string string
}.

Definition ToPackage (p : t) : Package.t :=
  {| Package.Name := Name p;
     Package.Description := Description p;
     Package.Framework := Framework p;
     Package.CurrentVersion := CurrentVersion p;
     Package.Supported := false;
     Package.Tags := Tags p;
     Package.Versions :=
       map_fold (fun version index versions =>
                   <[version := {| PackageVersion.Version := version;
                                   PackageVersion.Index := index;
                                   PackageVersion.Supported := false |}]> versions)
                ∅ (Versions p) |}.
End packageIndexEntry.

Module packageConfigGroup.
Inductive t : Type := mk {
  Description : string;
  Type_ : string;
  AdditionalProperties : bool;
  Properties : gmap string t;
  Required : list string;
  Minimum : value;
  Default : value
}.

Definition isNil (v : value) : bool :=
  match v with
  | VNull => true
  | _ => false
  end.

Fixpoint defaultConfig (g : t) : gmap string value :=
  map_fold (fun groupName group defaults =>
              if negb (isNil (Default group)) then <[groupName := Default group]> defaults
              else if bool_decide (Type_ group = "object")
                   then <[groupName := VObj (defaultConfig group)]> defaults
                   else defaults)
           ∅ (Properties g).
End packageConfigGroup.

(** The assignment [config[k] = ...] of [mergeConfig] for the override value
    [v], where [c] is [config[k]] ([None] when the key is absent): two maps
    are merged, anything else is replaced by [v].  The recursion of
    [mergeConfig] goes through the values of [override], so the loop is
    written out here and [mergeConfig] is that loop on two maps. *)
Fixpoint mergeEntry (v : value) (c : option value) {struct v} : value :=
  match v, c with
  | VObj overrideVal, Some (VObj configVal) =>
      VObj (map_fold (fun k v' config => <[k := mergeEntry v' (config !! k)]> config)
                     configVal overrideVal)
  | _, _ => v
  end.

Definition mergeConfig (config override : gmap string value) : gmap string value :=
  map_fold (fun k v config => <[k := mergeEntry v (config !! k)]> config) config override.

Module packageDefinition.
Record t := mk {
  commandJson : bytes;
  configJson : bytes;
  marathonJson : bytes;
  packageJson : bytes;
  optionsJson : bytes;
  name : string;
  version : string;
  release : string;
  framework : bool;
  frameworkName : string
}.

Definition IsValid (d : t) : bool :=
  nonempty (configJson d) && nonempty (marathonJson d) && nonempty (packageJson d).
End packageDefinition.

(** ** Package [install]: operations *)

(** [json.Unmarshal] at the three types the program decodes into. *)
Class Json := {
  unmarshalIndex : bytes -> result (list packageIndexEntry.t);
  unmarshalSchema : bytes -> result packageConfigGroup.t;
  unmarshalOptions : bytes -> result (gmap string value)
}.

(** Modelled from the spec: the struct [Install] is not in the source
    file; the code reads its store through the field [kv]. *)
Record Install := { kv : consul.KV }.

Section Operations.
Context `{!Go.PathJoin} `{!Go.Strings} `{!Json}.

(** Modelled from the spec: the method [Install.Repositories] is not in the
    source file; it yields the full ordered layer sequence, which package
    [repository] computes from the store. *)
Definition Repositories (install : Install) : result repository.RepositoryCollection :=
  repository.Repositories (kv install).

(** Modelled from the spec: the method [Install.LayerRepositories] is not in
    the source file; it yields the override layers, which package
    [repository] computes from the store. *)
Definition LayerRepositories (install : Install) : result repository.RepositoryCollection :=
  repository.LayersOf (kv install).

(** Modelled from the spec: the method [Install.BaseRepository] is not in
    the source file; it yields the base layer, which package [repository]
    reads from the store. *)
Definition BaseRepository (install : Install) : result (option repository.Repository) :=
  repository.BaseRepository (kv install).

Definition emptySchema : packageConfigGroup.t :=
  {| packageConfigGroup.Description := EmptyString;
     packageConfigGroup.Type_ := EmptyString;
     packageConfigGroup.AdditionalProperties := false;
     packageConfigGroup.Properties := ∅;
     packageConfigGroup.Required := [];
     packageConfigGroup.Minimum := VNull;
     packageConfigGroup.Default := VNull |}.

Definition ConfigSchema (d : packageDefinition.t) : result packageConfigGroup.t :=
  if nonempty (packageDefinition.configJson d)
  then unmarshalSchema (packageDefinition.configJson d)
  else Ok emptySchema.

(** A nil map ranges like an empty one. *)
Definition Options (d : packageDefinition.t) : result (gmap string value) :=
  if nonempty (packageDefinition.optionsJson d)
  then unmarshalOptions (packageDefinition.optionsJson d)
  else Ok ∅.

Definition MergedConfig (d : packageDefinition.t) : result (gmap string value) :=
  schema ← ConfigSchema d;
  options ← Options d;
  Ok (mergeConfig (packageConfigGroup.defaultConfig schema) options).

Definition getPackageDefinitionFile (install : Install) (name key : string) : bytes :=
  match consul.Get (kv install) (Go.Join [key; name]) with
  | (_, Some _) => []
  | (Some kp, None) => consul.Value kp
  | (None, None) => []
  end.

(** One layer probed for one version: [pkgVersion.Supported = kp != nil]. *)
Definition probeLayer (install : Install) (pkg : Package.t)
  (pkgVersion : PackageVersion.t) (layer : repository.Repository)
  : result PackageVersion.t :=
  k ← Package.PackageVersionKey pkg (PackageVersion.Index pkgVersion);
  let versionKey := Go.Join [repository.PackagesKey layer; k; "mantl.json"] in
  let kp := fst (consul.Get (kv install) versionKey) in
  Ok (PackageVersion.withSupported (bool_decide (is_Some kp)) pkgVersion).

(** The inner loop of [setSupportedVersions]: the layers in their order,
    each assigning the flag anew. *)
Definition probeLayers (install : Install) (pkg : Package.t)
  (layers : repository.RepositoryCollection) (pkgVersion : PackageVersion.t)
  : result PackageVersion.t :=
  foldlM (probeLayer install pkg) pkgVersion layers.

(** The outer loop of [setSupportedVersions]: every entry of
    [pkg.Versions] is probed and stored back under its key. *)
Definition probeVersions (install : Install) (pkg : Package.t)
  (layers : repository.RepositoryCollection) : result (gmap string PackageVersion.t) :=
  map_fold (fun version pkgVersion acc =>
              versions ← acc;
              pkgVersion' ← probeLayers install pkg layers pkgVersion;
              Ok (<[version := pkgVersion']> versions))
           (Ok (Package.Versions pkg)) (Package.Versions pkg).

Definition setSupportedVersions (install : Install) (pkg : Package.t) : result Package.t :=
  match LayerRepositories install with
  | Err _ => Ok pkg
  | Panic => Panic
  | Ok layers =>
      versions ← probeVersions install pkg layers;
      let pkg' := Package.withVersions versions pkg in
      Ok (Package.withSupported (Package.HasSupportedVersion pkg') pkg')
  end.

(** The last lines of [setCurrentVersion]: the first entry of the sorted
    supported versions becomes the current version. *)
Definition highestSupported (pkg pkg' : Package.t) : Prop :=
  exists versions sorted,
    Package.SupportedVersions pkg versions /\
    sortSort Less versions sorted /\
    pkg' = match List.find PackageVersion.Supported sorted with
           | Some pv => Package.withCurrentVersion (PackageVersion.Version pv) pkg
           | None => pkg
           end.

Definition setCurrentVersion (pkg pkg' : Package.t) : Prop :=
  if negb (Package.Supported pkg) || negb (Package.HasSupportedVersion pkg)
  then pkg' = pkg
  else match Package.Versions pkg !! Package.CurrentVersion pkg with
       | Some cv => if PackageVersion.Supported cv then pkg' = pkg
                    else highestSupported pkg pkg'
       | None => highestSupported pkg pkg'
       end.

Definition packageIndexEntries (install : Install) : result (list packageIndexEntry.t) :=
  match BaseRepository install with
  | Err err => Err err
  | Panic => Panic
  | Ok None => Ok []
  | Ok (Some baseRepo) =>
      match consul.Get (kv install) (repository.PackageIndexKey baseRepo) with
      | (_, Some err) => Err err
      | (None, None) => Ok []
      | (Some kp, None) => unmarshalIndex (consul.Value kp)
      end
  end.

(** The loop of [getPackages] over the index entries. *)
Inductive catalog (install : Install) :
  list packageIndexEntry.t -> result PackageCollection -> Prop :=
| catalog_nil : catalog install [] (Ok [])
| catalog_panic entry entries :
    setSupportedVersions install (packageIndexEntry.ToPackage entry) = Panic ->
    catalog install (entry :: entries) Panic
| catalog_cons entry entries pkg pkg' rest :
    setSupportedVersions install (packageIndexEntry.ToPackage entry) = Ok pkg ->
    setCurrentVersion pkg pkg' ->
    catalog install entries rest ->
    catalog install (entry :: entries) (cons pkg' <$> rest).

Definition getPackages (install : Install) (r : result PackageCollection) : Prop :=
  match packageIndexEntries install with
  | Ok entries => catalog install entries r
  | Err err => r = Err err
  | Panic => r = Panic
  end.

Definition getPackageByName (install : Install) (name : string)
  (r : result (option Package.t)) : Prop :=
  exists packages, getPackages install packages /\
    r = (ps ← packages;
         Ok (List.find (fun p => Go.EqualFold (Go.TrimSpace name) (Package.Name p)) ps)).

(** One pass of the loop over the repositories in [GetPackageDefinition]. *)
Definition collect (install : Install) (pkg : Package.t) (pkgVersion : PackageVersion.t)
  (pkgDef : packageDefinition.t) (repo : repository.Repository)
  : result packageDefinition.t :=
  k ← Package.PackageVersionKey pkg (PackageVersion.Index pkgVersion);
  let pkgKey := Go.Join [repository.PackagesKey repo; k] in
  let pick name old :=
    let data := getPackageDefinitionFile install name pkgKey in
    if nonempty data then data else old in
  Ok {| packageDefinition.commandJson :=
          pick "command.json" (packageDefinition.commandJson pkgDef);
        packageDefinition.configJson :=
          pick "config.json" (packageDefinition.configJson pkgDef);
        packageDefinition.marathonJson :=
          pick "marathon.json" (packageDefinition.marathonJson pkgDef);
        packageDefinition.packageJson :=
          pick "package.json" (packageDefinition.packageJson pkgDef);
        packageDefinition.optionsJson :=
          pick "mantl.json" (packageDefinition.optionsJson pkgDef);
        packageDefinition.name := packageDefinition.name pkgDef;
        packageDefinition.version := packageDefinition.version pkgDef;
        packageDefinition.release := packageDefinition.release pkgDef;
        packageDefinition.framework := packageDefinition.framework pkgDef;
        packageDefinition.frameworkName := packageDefinition.frameworkName pkgDef |}.

Definition newDefinition (pkg : Package.t) (pkgVersion : PackageVersion.t)
  : packageDefinition.t :=
  {| packageDefinition.commandJson := [];
     packageDefinition.configJson := [];
     packageDefinition.marathonJson := [];
     packageDefinition.packageJson := [];
     packageDefinition.optionsJson := [];
     packageDefinition.name := Package.Name pkg;
     packageDefinition.version := PackageVersion.Version pkgVersion;
     packageDefinition.release := PackageVersion.Index pkgVersion;
     packageDefinition.framework := Package.Framework pkg;
     packageDefinition.frameworkName := EmptyString |}.

Definition assemble (install : Install) (pkg : Package.t) (pkgVersion : PackageVersion.t)
  (repositories : repository.RepositoryCollection) : result packageDefinition.t :=
  foldlM (collect install pkg pkgVersion) (newDefinition pkg pkgVersion) repositories.

Definition withFrameworkName (config : gmap string value) (pkgDef : packageDefinition.t)
  : packageDefinition.t :=
  match config !! "framework-name" with
  | Some (VStr fwName) =>
      {| packageDefinition.commandJson := packageDefinition.commandJson pkgDef;
         packageDefinition.configJson := packageDefinition.configJson pkgDef;
         packageDefinition.marathonJson := packageDefinition.marathonJson pkgDef;
         packageDefinition.packageJson := packageDefinition.packageJson pkgDef;
         packageDefinition.optionsJson := packageDefinition.optionsJson pkgDef;
         packageDefinition.name := packageDefinition.name pkgDef;
         packageDefinition.version := packageDefinition.version pkgDef;
         packageDefinition.release := packageDefinition.release pkgDef;
         packageDefinition.framework := packageDefinition.framework pkgDef;
         packageDefinition.frameworkName := fwName |}
  | _ => pkgDef
  end.

(** [GetPackageDefinition] from the call of [install.Repositories] on. *)
Definition describe (install : Install) (pkg : Package.t) (pkgVersion : PackageVersion.t)
  : result packageDefinition.t :=
  repositories ← Repositories install;
  pkgDef ← assemble install pkg pkgVersion repositories;
  config ← MergedConfig pkgDef;
  Ok (withFrameworkName config pkgDef).

(** The choice of the version in [GetPackageDefinition]: the requested
    one, else the latest, else an error. *)
Inductive selectVersion (pkg : Package.t) (name version : string) :
  result PackageVersion.t -> Prop :=
| select_requested pkgVersion :
    Package.FindPackageVersion pkg version (Some pkgVersion) ->
    selectVersion pkg name version (Ok pkgVersion)
| select_latest pkgVersion :
    Package.FindPackageVersion pkg version None ->
    Package.FindLatestPackageVersion pkg (Some pkgVersion) ->
    selectVersion pkg name version (Ok pkgVersion)
| select_none :
    Package.FindPackageVersion pkg version None ->
    Package.FindLatestPackageVersion pkg None ->
    selectVersion pkg name version
      (Err ("Could not find installable version for " ++ name)).

(** [getPackageByName] answers [(nil, nil)] for an unknown name, and the
    method call [pkg.FindPackageVersion] on the nil [*Package] has to load
    [*pkg] for its value receiver: a nil-pointer panic. *)
Inductive GetPackageDefinition (install : Install) (name version : string) :
  result packageDefinition.t -> Prop :=
| get_error err :
    getPackageByName install name (Err err) ->
    GetPackageDefinition install name version (Err err)
| get_catalog_panic :
    getPackageByName install name Panic ->
    GetPackageDefinition install name version Panic
| get_nil_package :
    getPackageByName install name (Ok None) ->
    GetPackageDefinition install name version Panic
| get_package pkg selected :
    getPackageByName install name (Ok (Some pkg)) ->
    selectVersion pkg name version selected ->
    GetPackageDefinition install name version
      (pkgVersion ← selected; describe install pkg pkgVersion).

End Operations.

(** ** One run of the order-dependent functions

    The run in which every [range] over [p.Versions] follows [versionList]
    and [sort.Sort] behaves as a merge sort.  It is one of the runs the
    relations above allow, and it can be evaluated. *)

Definition mostRecentFirst (a b : PackageVersion.t) : Prop :=
  String.le (PackageVersion.Index b) (PackageVersion.Index a).

#[global] Instance mostRecentFirst_dec : RelDecision mostRecentFirst.
Proof. intros a b. unfold mostRecentFirst. apply _. Defined.

Definition sortRun (versions : list PackageVersion.t) : list PackageVersion.t :=
  merge_sort mostRecentFirst versions.

Definition FindPackageVersionRun `{!Go.Strings} (p : Package.t) (version : string)
  : option PackageVersion.t :=
  List.find (Package.matches version) (Package.versionList p).

Definition FindLatestPackageVersionRun (p : Package.t) : option PackageVersion.t :=
  head (sortRun (Package.versionList p)).

Definition highestSupportedRun (pkg : Package.t) : Package.t :=
  match List.find PackageVersion.Supported
          (sortRun (Package.supportedOf (Package.versionList pkg))) with
  | Some pv => Package.withCurrentVersion (PackageVersion.Version pv) pkg
  | None => pkg
  end.

Definition setCurrentVersionRun (pkg : Package.t) : Package.t :=
  if negb (Package.Supported pkg) || negb (Package.HasSupportedVersion pkg)
  then pkg
  else match Package.Versions pkg !! Package.CurrentVersion pkg with
       | Some cv => if PackageVersion.Supported cv then pkg else highestSupportedRun pkg
       | None => highestSupportedRun pkg
       end.

Definition selectVersionRun `{!Go.Strings} (pkg : Package.t) (name version : string)
  : result PackageVersion.t :=
  match FindPackageVersionRun pkg version with
  | Some pkgVersion => Ok pkgVersion
  | None =>
      match FindLatestPackageVersionRun pkg with
      | Some pkgVersion => Ok pkgVersion
      | None => Err ("Could not find installable version for " ++ name)
      end
  end.

Section Run.
Context `{!Go.PathJoin} `{!Go.Strings} `{!Json}.

Fixpoint catalogRun (install : Install) (entries : list packageIndexEntry.t)
  : result PackageCollection :=
  match entries with
  | [] => Ok []
  | entry :: entries' =>
      pkg ← setSupportedVersions install (packageIndexEntry.ToPackage entry);
      cons (setCurrentVersionRun pkg) <$> catalogRun install entries'
  end.

Definition getPackagesRun (install : Install) : result PackageCollection :=
  entries ← packageIndexEntries install; catalogRun install entries.

Definition getPackageByNameRun (install : Install) (name : string)
  : result (option Package.t) :=
  ps ← getPackagesRun install;
  Ok (List.find (fun p => Go.EqualFold (Go.TrimSpace name) (Package.Name p)) ps).

Definition GetPackageDefinitionRun (install : Install) (name version : string)
  : result packageDefinition.t :=
  found ← getPackageByNameRun install name;
  match found with
  | None => Panic
  | Some pkg =>
      pkgVersion ← selectVersionRun pkg name version;
      describe install pkg pkgVersion
  end.
End Run.

(** ** The five documents of a descriptor bundle *)

Inductive document := CommandDoc | ConfigDoc | MarathonDoc | PackageDoc | OptionsDoc.

Definition fileName (doc : document) : string :=
  match doc with
  | CommandDoc => "command.json"
  | ConfigDoc => "config.json"
  | MarathonDoc => "marathon.json"
  | PackageDoc => "package.json"
  | OptionsDoc => "mantl.json"
  end.

Definition content (doc : document) (d : packageDefinition.t) : bytes :=
  match doc with
  | CommandDoc => packageDefinition.commandJson d
  | ConfigDoc => packageDefinition.configJson d
  | MarathonDoc => packageDefinition.marathonJson d
  | PackageDoc => packageDefinition.packageJson d
  | OptionsDoc => packageDefinition.optionsJson d
  end.

(** What layer [repo] stores for [doc] of the given package and release, as
    the assembly loop reads it; nothing when the key cannot be built. *)
Definition stored `{!Go.PathJoin} `{!Go.Strings} (install : Install) (pkg : Package.t)
  (pkgVersion : PackageVersion.t) (repo : repository.Repository) (doc : document) : bytes :=
  match Package.PackageVersionKey pkg (PackageVersion.Index pkgVersion) with
  | Ok k => getPackageDefinitionFile install (fileName doc)
              (Go.Join [repository.PackagesKey repo; k])
  | _ => []
  end.

(** Whether a layer holds the options document of a version: the test of
    [setSupportedVersions]. *)
Definition optionsPresent `{!Go.PathJoin} `{!Go.Strings} (install : Install) (pkg : Package.t)
  (pkgVersion : PackageVersion.t) (layer : repository.Repository) : bool :=
  match Package.PackageVersionKey pkg (PackageVersion.Index pkgVersion) with
  | Ok k => bool_decide (is_Some (fst (consul.Get (kv install)
              (Go.Join [repository.PackagesKey layer; k; "mantl.json"]))))
  | _ => false
  end.

(** What the loop over the layers leaves in [Supported]: the answer of the
    layer probed last, and the old flag when there is no layer. *)
Definition lastProbe `{!Go.PathJoin} `{!Go.Strings} (install : Install) (pkg : Package.t)
  (layers : repository.RepositoryCollection) (pv : PackageVersion.t) : PackageVersion.t :=
  match last layers with
  | Some layer => PackageVersion.withSupported (optionsPresent install pkg pv layer) pv
  | None => pv
  end.

(** The content collected for [doc] after the loop of [GetPackageDefinition]
    went through [repos], starting from [init]: every layer that stores
    something replaces what was collected before. *)
Definition lastStored `{!Go.PathJoin} `{!Go.Strings} (install : Install) (pkg : Package.t)
  (pkgVersion : PackageVersion.t) (doc : document)
  (repos : repository.RepositoryCollection) (init : bytes) : bytes :=
  foldl (fun acc repo =>
           if nonempty (stored install pkg pkgVersion repo doc)
           then stored install pkg pkgVersion repo doc
           else acc) init repos.

(** The repositories are in ascending order of their index. *)
Definition ascending (repos : repository.RepositoryCollection) : Prop :=
  StronglySorted (fun a b => repository.Index a <= repository.Index b) repos.

(** Every version is stored under its own version string. *)
Definition keyed (pkg : Package.t) : Prop :=
  forall k pv, Package.Versions pkg !! k = Some pv -> PackageVersion.Version pv = k.

(** The invariant of a package of the catalog. *)
Definition resolved (pkg : Package.t) : Prop :=
  (Package.Supported pkg = true <->
   exists k pv, Package.Versions pkg !! k = Some pv /\ PackageVersion.Supported pv = true) /\
  (Package.Supported pkg = true ->
   exists pv, Package.Versions pkg !! Package.CurrentVersion pkg = Some pv /\
              PackageVersion.Supported pv = true).

Definition isPanic {A : Type} (r : result A) : bool :=
  match r with
  | Panic => true
  | _ => false
  end.

Definition isOk {A : Type} (r : result A) : bool :=
  match r with
  | Ok _ => true
  | _ => false
  end.

(** ** Sample stores and packages *)

(** A store that holds [docs], lists one key per entry of [indexes] under
    the prefix it is asked for, and never fails. *)
Definition sampleStore (docs : list (string * string)) (indexes : list string) : consul.KV :=
  {| consul.Get := fun key =>
       (match (list_to_map docs : gmap string string) !! key with
        | Some v => Some {| consul.Key := key; consul.Value := Go.bytesOf v |}
        | None => None
        end, None);
     consul.Keys := fun prefix _ => (List.map (fun i => prefix ++ i ++ "/") indexes, None) |}.

Definition zkEntry : packageIndexEntry.t :=
  {| packageIndexEntry.CurrentVersion := "1.0";
     packageIndexEntry.Description := "coordination service";
     packageIndexEntry.Framework := false;
     packageIndexEntry.Name := "zk";
     packageIndexEntry.Tags := [];
     packageIndexEntry.Versions := {[ "1.0" := "3" ]} |}.

(** An entry of the index without a name. *)
Definition unnamedEntry : packageIndexEntry.t :=
  {| packageIndexEntry.CurrentVersion := "1.0";
     packageIndexEntry.Description := EmptyString;
     packageIndexEntry.Framework := false;
     packageIndexEntry.Name := EmptyString;
     packageIndexEntry.Tags := [];
     packageIndexEntry.Versions := {[ "1.0" := "3" ]} |}.

(** JSON text: [quoted s] is [s] between double quotes, for a string that
    needs no escape. *)
Definition quote : string := String (ascii_of_nat 34) EmptyString.

Definition quoted (s : string) : string := quote ++ s ++ quote.

Definition member (key text : string) : string := quoted key ++ ":" ++ text.

Definition object (members : list string) : string :=
  "{" ++ String.concat "," members ++ "}".

Definition entryJson (name description : string) : string :=
  object [ member "name" (quoted name);
           member "description" (quoted description);
           member "framework" "false";
           member "currentVersion" (quoted "1.0");
           member "tags" "[]";
           member "versions" (object [ member "1.0" (quoted "3") ]) ].

(** The index document that lists [zkEntry]. *)
Definition zkIndexJson : string :=
  object [ member "packages" ("[" ++ entryJson "zk" "coordination service" ++ "]") ].

(** The index document that lists [zkEntry] and [unnamedEntry]. *)
Definition unnamedIndexJson : string :=
  object [ member "packages"
             ("[" ++ entryJson "zk" "coordination service" ++ "," ++ entryJson "" "" ++ "]") ].

(** The options document that names the framework. *)
Definition frameworkOptionsJson : string :=
  object [ member "framework-name" (quoted "zookeeper") ].

(** [json.Unmarshal] restricted to the documents of the sample stores.  Any
    other text is answered with an error; no example runs into it. *)
Definition sampleJson : Json :=
  {| unmarshalIndex := fun b =>
       if String.eqb (Go.stringOf b) zkIndexJson then Ok [zkEntry]
       else if String.eqb (Go.stringOf b) unnamedIndexJson then Ok [zkEntry; unnamedEntry]
       else Err "not a sample index document";
     unmarshalSchema := fun b =>
       if String.eqb (Go.stringOf b) "{}" || String.eqb (Go.stringOf b) "{ }"
       then Ok emptySchema
       else Err "not a sample schema document";
     unmarshalOptions := fun b =>
       if String.eqb (Go.stringOf b) "{}" then Ok ∅
       else if String.eqb (Go.stringOf b) frameworkOptionsJson
            then Ok {[ "framework-name" := VStr "zookeeper" ]}
            else Err "not a sample options document" |}.

Definition threeLayers : list (string * string) :=
  [ ("mantl-install/repository/0/name", "base");
    ("mantl-install/repository/1/name", "first");
    ("mantl-install/repository/2/name", "second");
    ("mantl-install/repository/0/repo/meta/index.json", zkIndexJson) ].

(** The options document of zk 1.0 lies in layer 1 and not in layer 2. *)
Definition optionsInFirstLayer : Install :=
  {| kv := sampleStore
       (("mantl-install/repository/1/repo/packages/Z/zk/3/mantl.json", "{}") :: threeLayers)
       ["0"; "1"; "2"] |}.

(** The options document of zk 1.0 lies in layer 2 and not in layer 1. *)
Definition optionsInLastLayer : Install :=
  {| kv := sampleStore
       (("mantl-install/repository/2/repo/packages/Z/zk/3/mantl.json", "{}") :: threeLayers)
       ["0"; "1"; "2"] |}.

(** The base layer and layer 1 both hold a [config.json] for zk 1.0: two
    texts of the empty schema. *)
Definition twoConfigs : Install :=
  {| kv := sampleStore
       (("mantl-install/repository/0/repo/packages/Z/zk/3/config.json", "{}") ::
        ("mantl-install/repository/1/repo/packages/Z/zk/3/config.json", "{ }") ::
        threeLayers)
       ["0"; "1"; "2"] |}.

(** The base layer holds a [config.json] for zk 1.0 and layer 2 an options
    document that names the framework. *)
Definition frameworkNamed : Install :=
  {| kv := sampleStore
       (("mantl-install/repository/0/repo/packages/Z/zk/3/config.json", "{}") ::
        ("mantl-install/repository/2/repo/packages/Z/zk/3/mantl.json", frameworkOptionsJson) ::
        threeLayers)
       ["0"; "1"; "2"] |}.

(** A layer is listed under the index -3, next to the base layer; both hold
    a [config.json] for zk 1.0. *)
Definition negativeLayer : Install :=
  {| kv := sampleStore
       [ ("mantl-install/repository/0/name", "base");
         ("mantl-install/repository/-3/name", "override");
         ("mantl-install/repository/0/repo/meta/index.json", zkIndexJson);
         ("mantl-install/repository/0/repo/packages/Z/zk/3/config.json", "{}");
         ("mantl-install/repository/-3/repo/packages/Z/zk/3/config.json", "{ }") ]
       ["0"; "-3"] |}.

Definition version (v index : string) (supported : bool) : PackageVersion.t :=
  {| PackageVersion.Version := v; PackageVersion.Index := index;
     PackageVersion.Supported := supported |}.

Definition samplePackage (current : string) (supported : bool)
  (versions : gmap string PackageVersion.t) : Package.t :=
  {| Package.Name := "zk"; Package.Description := EmptyString;
     Package.Framework := false; Package.CurrentVersion := current;
     Package.Supported := supported; Package.Tags := [];
     Package.Versions := versions |}.

(** The declared current version 0.9 is unsupported; 1.0 (release index 5)
    and 1.2 (release index 9) are supported. *)
Definition staleCurrent : Package.t :=
  samplePackage "0.9" true
    (<["0.9" := version "0.9" "1" false]>
       (<["1.0" := version "1.0" "5" true]> {[ "1.2" := version "1.2" "9" true ]})).

(** Two supported versions share the greatest release index. *)
Definition tied : Package.t :=
  samplePackage "0.9" true
    (<["a" := version "a" "5" true]> {[ "b" := version "b" "5" true ]}).

(** One version is stored under the empty version string. *)
Definition emptyKey : Package.t :=
  samplePackage "2.0" false
    (<["" := version "" "1" false]> {[ "2.0" := version "2.0" "2" false ]}).

(** Version 1.0 has the release index 3 and version 2.0 the release index
    5. *)
Definition twoVersions : Package.t :=
  samplePackage "2.0" false
    (<["1.0" := version "1.0" "3" false]> {[ "2.0" := version "2.0" "5" false ]}).

(** A bundle with everything but the command document. *)
Definition noCommand : packageDefinition.t :=
  {| packageDefinition.commandJson := [];
     packageDefinition.configJson := Go.bytesOf "{}";
     packageDefinition.marathonJson := Go.bytesOf "{}";
     packageDefinition.packageJson := Go.bytesOf "{}";
     packageDefinition.optionsJson := [];
     packageDefinition.name := "zk";
     packageDefinition.version := "1.0";
     packageDefinition.release := "3";
     packageDefinition.framework := false;
     packageDefinition.frameworkName := EmptyString |}.

(** * Properties *)

(** ** The model at work *)

Section Examples.
#[local] Existing Instance Go.joinClean.
#[local] Existing Instance Go.asciiStrings.
#[local] Existing Instance sampleJson.

Example Atoi_values :
  Go.Atoi "12" = Some 12 /\ Go.Atoi "-3" = Some (-3) /\ Go.Atoi "+7" = Some 7 /\
  Go.Atoi "" = None /\ Go.Atoi "-" = None /\ Go.Atoi "1x" = None /\
  Go.Atoi "9223372036854775808" = None.
Proof. vm_compute. repeat split; reflexivity. Qed.

Example strings_values :
  Go.TrimSpace "  1.0 " = "1.0" /\ Go.EqualFold "1.0-RC" "1.0-rc" = true /\
  Go.EqualFold "1.0" "1.1" = false /\ Go.ToUpper "zk" = "ZK" /\
  Go.SplitSlash (Go.TrimSuffixSlash "mantl-install/repository/2/")
  = ["mantl-install"; "repository"; "2"].
Proof. vm_compute. repeat split; reflexivity. Qed.

Example PackageVersionKey_zk :
  Package.PackageVersionKey (packageIndexEntry.ToPackage zkEntry) "3" = Ok "Z/zk/3".
Proof. vm_compute. reflexivity. Qed.

(** The schema default [{instances: 3}] under the options [{instances: 5}]. *)
Example mergeConfig_instances :
  let instances :=
    {| packageConfigGroup.Description := "number of instances";
       packageConfigGroup.Type_ := "integer";
       packageConfigGroup.AdditionalProperties := false;
       packageConfigGroup.Properties := ∅;
       packageConfigGroup.Required := [];
       packageConfigGroup.Minimum := VNum 1;
       packageConfigGroup.Default := VNum 3 |} in
  let schema :=
    {| packageConfigGroup.Description := EmptyString;
       packageConfigGroup.Type_ := "object";
       packageConfigGroup.AdditionalProperties := false;
       packageConfigGroup.Properties := {[ "instances" := instances ]};
       packageConfigGroup.Required := [];
       packageConfigGroup.Minimum := VNull;
       packageConfigGroup.Default := VNull |} in
  packageConfigGroup.defaultConfig schema = {[ "instances" := VNum 3 ]} /\
  mergeConfig (packageConfigGroup.defaultConfig schema) {[ "instances" := VNum 5 ]}
  = {[ "instances" := VNum 5 ]}.
Proof. vm_compute. split; reflexivity. Qed.

(** The request "ZK " for the latest version, over a store in which the
    base layer and layer 1 both hold a [config.json]. *)
Example GetPackageDefinition_zk :
  (fun d => (packageDefinition.name d, packageDefinition.version d,
             packageDefinition.release d, Go.stringOf (packageDefinition.configJson d)))
    <$> GetPackageDefinitionRun twoConfigs "ZK " ""
  = Ok ("zk", "1.0", "3", "{ }").
Proof. vm_compute. reflexivity. Qed.

(** The same request over a store whose layer 2 names the framework in its
    options document. *)
Example GetPackageDefinition_framework :
  packageDefinition.frameworkName <$> GetPackageDefinitionRun frameworkNamed "zk" "1.0"
  = Ok "zookeeper".
Proof. vm_compute. reflexivity. Qed.

End Examples.

(** ** Outcomes *)

Lemma bind_Ok {A B : Type} (m : result A) (f : A -> result B) (b : B) :
  m ≫= f = Ok b -> exists a, m = Ok a /\ f a = Ok b.
Proof. destruct m as [a| |]; simpl; [eauto|done..]. Qed.

(** ** Strings and sorting *)

Lemma ltb_false_le (s t : string) : String.ltb s t = false <-> String.le t s.
Proof.
  unfold String.le, String.ltb, String.leb.
  rewrite (String.compare_antisym t s).
  destruct (String.compare s t); simpl; split; intros; done.
Qed.

Lemma Less_false (x y : PackageVersion.t) :
  Less y x = false <-> mostRecentFirst x y.
Proof. unfold Less, mostRecentFirst. apply ltb_false_le. Qed.

#[global] Instance mostRecentFirst_trans : Transitive mostRecentFirst.
Proof. intros a b c Hab Hbc. unfold mostRecentFirst in *. by etrans. Qed.

#[global] Instance mostRecentFirst_total : Total mostRecentFirst.
Proof. intros a b. unfold mostRecentFirst. destruct (total String.le (PackageVersion.Index a) (PackageVersion.Index b)); auto. Qed.

Lemma StronglySorted_impl {A : Type} (R S : relation A) (l : list A) :
  (forall x y, R x y -> S x y) -> StronglySorted R l -> StronglySorted S l.
Proof.
  intros HRS. induction 1 as [|x l Hl IH Hx]; constructor; [done|].
  eapply Forall_impl; [exact Hx|]. auto.
Qed.

Lemma sortRun_sortSort (versions : list PackageVersion.t) :
  sortSort Less versions (sortRun versions).
Proof.
  split; [apply merge_sort_Permutation|].
  apply (StronglySorted_impl mostRecentFirst); [intros x y; apply Less_false|].
  apply (StronglySorted_merge_sort _).
Qed.

(** The first entry of a slice sorted by [Less] has the greatest release
    index of the slice that was sorted. *)
Lemma sortSort_head (l sorted : list PackageVersion.t) (pv : PackageVersion.t) :
  sortSort Less l sorted -> head sorted = Some pv ->
  pv ∈ l /\ forall pv', pv' ∈ l -> String.le (PackageVersion.Index pv') (PackageVersion.Index pv).
Proof.
  intros [Hperm Hsorted] Hhead.
  destruct sorted as [|x sorted]; simplify_eq/=.
  split; [rewrite <- Hperm; left|].
  intros pv' Hin. rewrite <- Hperm in Hin.
  apply StronglySorted_inv in Hsorted as [_ Hall].
  apply elem_of_cons in Hin as [->|Hin]; [done|].
  rewrite Forall_forall in Hall. apply ltb_false_le. by apply Hall.
Qed.

Lemma sortSort_nil (l sorted : list PackageVersion.t) :
  sortSort Less l sorted -> head sorted = None -> l = [].
Proof.
  intros [Hperm _] Hhead. destruct sorted; [|done].
  by apply Permutation_nil_l in Hperm.
Qed.

Lemma find_some_elem {A : Type} (f : A -> bool) (l : list A) (x : A) :
  List.find f l = Some x -> x ∈ l /\ f x = true.
Proof. intros H. apply List.find_some in H as [H1 H2]. by rewrite list_elem_of_In. Qed.

Lemma find_none_elem {A : Type} (f : A -> bool) (l : list A) :
  List.find f l = None <-> forall x, x ∈ l -> f x = false.
Proof.
  split.
  - intros H x Hx. apply (List.find_none f l H). by apply list_elem_of_In.
  - intros H. induction l as [|a l IH]; [done|]. simpl.
    rewrite (H a) by left. apply IH. intros x Hx. apply H. by right.
Qed.

Lemma find_perm_none {A : Type} (f : A -> bool) (l l' : list A) :
  l ≡ₚ l' -> List.find f l = None -> List.find f l' = None.
Proof.
  intros Hp. rewrite !find_none_elem. intros H x Hx. apply H. by rewrite Hp.
Qed.

(** ** Packages and their versions *)

Lemma elem_of_versionList (p : Package.t) (pv : PackageVersion.t) :
  pv ∈ Package.versionList p <-> exists k, Package.Versions p !! k = Some pv.
Proof.
  unfold Package.versionList. rewrite list_elem_of_fmap. split.
  - intros [[k v] [-> Hin]]. exists k. by apply elem_of_map_to_list.
  - intros [k Hk]. exists (k, pv). split; [done|]. by apply elem_of_map_to_list.
Qed.

Lemma versionList_nil (p : Package.t) :
  Package.versionList p = [] <-> Package.Versions p = ∅.
Proof.
  unfold Package.versionList. split.
  - intros H. apply fmap_nil_inv in H. by apply map_to_list_empty_iff.
  - intros ->. by rewrite map_to_list_empty.
Qed.

Lemma elem_of_PackageVersions (p : Package.t) (versions : list PackageVersion.t)
  (pv : PackageVersion.t) :
  Package.PackageVersions p versions ->
  pv ∈ versions <-> exists k, Package.Versions p !! k = Some pv.
Proof. intros Hp. rewrite Hp. apply elem_of_versionList. Qed.

Lemma elem_of_supportedOf (versions : list PackageVersion.t) (pv : PackageVersion.t) :
  pv ∈ Package.supportedOf versions <-> pv ∈ versions /\ PackageVersion.Supported pv = true.
Proof. unfold Package.supportedOf. rewrite !list_elem_of_In. apply List.filter_In. Qed.

Lemma HasSupportedVersion_true (p : Package.t) :
  Package.HasSupportedVersion p = true <->
  exists k pv, Package.Versions p !! k = Some pv /\ PackageVersion.Supported pv = true.
Proof.
  unfold Package.HasSupportedVersion. rewrite bool_decide_eq_true. split.
  - intros Hlen.
    destruct (Package.supportedOf (Package.versionList p)) as [|pv l] eqn:E; [simpl in Hlen; lia|].
    assert (pv ∈ Package.supportedOf (Package.versionList p)) as Hin by (rewrite E; left).
    apply elem_of_supportedOf in Hin as [Hin Hs].
    apply elem_of_versionList in Hin as [k Hk]. eauto.
  - intros (k & pv & Hk & Hs).
    assert (pv ∈ Package.supportedOf (Package.versionList p)) as Hin.
    { apply elem_of_supportedOf. split; [|done]. apply elem_of_versionList. eauto. }
    destruct (Package.supportedOf (Package.versionList p)); [by apply elem_of_nil in Hin|simpl; lia].
Qed.

Lemma SupportedVersions_versionList (p : Package.t) :
  Package.SupportedVersions p (Package.supportedOf (Package.versionList p)).
Proof. exists (Package.versionList p). split; [unfold Package.PackageVersions|]; reflexivity. Qed.

Lemma elem_of_SupportedVersions (p : Package.t) (versions : list PackageVersion.t)
  (pv : PackageVersion.t) :
  Package.SupportedVersions p versions ->
  pv ∈ versions <->
  (exists k, Package.Versions p !! k = Some pv) /\ PackageVersion.Supported pv = true.
Proof.
  intros (all & Hall & ->). rewrite elem_of_supportedOf.
  by rewrite (elem_of_PackageVersions p all pv Hall).
Qed.

(** ** Configuration merge and default extraction *)

Lemma mergeEntry_maps (configVal overrideVal : gmap string value) :
  mergeEntry (VObj overrideVal) (Some (VObj configVal)) = VObj (mergeConfig configVal overrideVal).
Proof. reflexivity. Qed.

Lemma mergeConfig_lookup_entry (config override : gmap string value) (k : string) :
  mergeConfig config override !! k =
  match override !! k with
  | Some v => Some (mergeEntry v (config !! k))
  | None => config !! k
  end.
Proof.
  unfold mergeConfig. revert k.
  apply (map_fold_weak_ind
           (fun r (m : gmap string value) => forall k,
                r !! k = match m !! k with
                         | Some v => Some (mergeEntry v (config !! k))
                         | None => config !! k
                         end)).
  - intros k. by rewrite lookup_empty.
  - intros i x m r Hi IH k.
    destruct (decide (i = k)) as [->|Hne].
    + rewrite !lookup_insert_eq. f_equal. f_equal.
      rewrite IH, Hi. reflexivity.
    + rewrite !lookup_insert_ne by done. apply IH.
Qed.

(** C2.  [mergeConfig base override] holds, at each key of [override], the
    recursive merge of the two values when the key is in [base] and both
    values are maps, and the override value in every other case; at a key
    that [override] does not have it holds what [base] holds. *)
Theorem mergeConfig_spec (base override : gmap string value) (k : string) :
  mergeConfig base override !! k =
  match override !! k with
  | None => base !! k
  | Some v =>
      match base !! k, v with
      | Some (VObj configVal), VObj overrideVal =>
          Some (VObj (mergeConfig configVal overrideVal))
      | _, _ => Some v
      end
  end.
Proof.
  rewrite mergeConfig_lookup_entry.
  destruct (override !! k) as [v|]; [|reflexivity].
  destruct (base !! k) as [[]|]; destruct v; reflexivity.
Qed.

Lemma mergeConfig_empty_r (config : gmap string value) : mergeConfig config ∅ = config.
Proof. apply map_eq. intros k. by rewrite mergeConfig_lookup_entry, lookup_empty. Qed.

Lemma mergeConfig_empty_l (override : gmap string value) : mergeConfig ∅ override = override.
Proof.
  apply map_eq. intros k. rewrite mergeConfig_lookup_entry, lookup_empty.
  by destruct (override !! k) as [[]|].
Qed.

(** Nested maps merge field by field:
    [merge({a: {b: 1, c: 2}}, {a: {c: 9}}) = {a: {b: 1, c: 9}}]. *)
Example mergeConfig_nested :
  mergeConfig {[ "a" := VObj (<["b" := VNum 1]> {[ "c" := VNum 2 ]}) ]}
              {[ "a" := VObj {[ "c" := VNum 9 ]} ]}
  = {[ "a" := VObj (<["b" := VNum 1]> {[ "c" := VNum 9 ]}) ]}.
Proof. vm_compute. reflexivity. Qed.

(** C8.  [defaultConfig] walks the properties of a schema node: a child with
    a default contributes that default as it stands, a child without one
    whose type is "object" contributes the defaults of its own properties
    (possibly the empty map), and any other child contributes no key. *)
Theorem defaultConfig_spec (g : packageConfigGroup.t) (k : string) :
  packageConfigGroup.defaultConfig g !! k =
  match packageConfigGroup.Properties g !! k with
  | None => None
  | Some group =>
      if negb (packageConfigGroup.isNil (packageConfigGroup.Default group))
      then Some (packageConfigGroup.Default group)
      else if bool_decide (packageConfigGroup.Type_ group = "object")
           then Some (VObj (packageConfigGroup.defaultConfig group))
           else None
  end.
Proof.
  destruct g as [d ty ap props req mn df]. simpl. revert k.
  apply (map_fold_weak_ind
           (fun r (m : gmap string packageConfigGroup.t) => forall k,
                r !! k = match m !! k with
                         | None => None
                         | Some group =>
                             if negb (packageConfigGroup.isNil (packageConfigGroup.Default group))
                             then Some (packageConfigGroup.Default group)
                             else if bool_decide (packageConfigGroup.Type_ group = "object")
                                  then Some (VObj (packageConfigGroup.defaultConfig group))
                                  else None
                         end)).
  - intros k. by rewrite !lookup_empty.
  - intros i x m r Hi IH k.
    destruct (decide (i = k)) as [->|Hne].
    + rewrite lookup_insert_eq.
      destruct (negb _); [by rewrite lookup_insert_eq|].
      destruct (bool_decide _); [by rewrite lookup_insert_eq|].
      by rewrite IH, Hi.
    + rewrite (lookup_insert_ne m) by done. rewrite <- IH.
      destruct (negb _); [by rewrite lookup_insert_ne|].
      destruct (bool_decide _); [by rewrite lookup_insert_ne|done].
Qed.

(** ** Validity of a descriptor bundle *)

Lemma nonempty_true (b : bytes) : nonempty b = true <-> b <> [].
Proof. destruct b; simpl; split; intros; done. Qed.

(** C3, as the code has it.  A bundle is valid exactly when its
    configuration schema, its deployment template and its package metadata
    are non-empty; neither the command document nor the options document is
    looked at. *)
Theorem IsValid_spec (d : packageDefinition.t) :
  packageDefinition.IsValid d = true <->
  packageDefinition.configJson d <> [] /\
  packageDefinition.marathonJson d <> [] /\
  packageDefinition.packageJson d <> [].
Proof.
  unfold packageDefinition.IsValid.
  rewrite !andb_true_iff, !nonempty_true. tauto.
Qed.

(** C3 fails as stated: a bundle without a command document is valid. *)
Lemma IsValid_without_command :
  packageDefinition.IsValid noCommand = true /\
  nonempty (packageDefinition.commandJson noCommand) = false.
Proof. split; reflexivity. Qed.

(** ** Storage keys *)

(** C10.  The container letter, and with it the package key and every
    version key, is computed exactly when the package name is not empty; on
    the empty name the call panics. *)
Theorem PackageVersionKey_partial `{!Go.PathJoin} `{!Go.Strings} (p : Package.t) (index : string) :
  isPanic (Package.ContainerId p) = bool_decide (Package.Name p = EmptyString) /\
  isPanic (Package.PackageKey p) = bool_decide (Package.Name p = EmptyString) /\
  isPanic (Package.PackageVersionKey p index) = bool_decide (Package.Name p = EmptyString) /\
  isOk (Package.ContainerId p) = negb (bool_decide (Package.Name p = EmptyString)) /\
  isOk (Package.PackageKey p) = negb (bool_decide (Package.Name p = EmptyString)) /\
  isOk (Package.PackageVersionKey p index) = negb (bool_decide (Package.Name p = EmptyString)).
Proof.
  unfold Package.PackageVersionKey, Package.PackageKey, Package.ContainerId.
  destruct (Package.Name p); simpl; repeat split; reflexivity.
Qed.

Lemma PackageVersionKey_Ok `{!Go.PathJoin} `{!Go.Strings} (p : Package.t) (index : string) :
  Package.Name p <> EmptyString -> exists k, Package.PackageVersionKey p index = Ok k.
Proof.
  unfold Package.PackageVersionKey, Package.PackageKey, Package.ContainerId.
  destruct (Package.Name p); [done|]. simpl. eauto.
Qed.

Lemma PackageVersionKey_Panic `{!Go.PathJoin} `{!Go.Strings} (p : Package.t) (index : string) :
  Package.Name p = EmptyString -> Package.PackageVersionKey p index = Panic.
Proof.
  unfold Package.PackageVersionKey, Package.PackageKey, Package.ContainerId.
  by intros ->.
Qed.

(** ** Support probing *)

Section Probing.
Context `{pathJoin : !Go.PathJoin} `{goStrings : !Go.Strings}.

Lemma probeLayer_fields (install : Install) (pkg : Package.t) (pv pv' : PackageVersion.t)
  (layer : repository.Repository) :
  probeLayer install pkg pv layer = Ok pv' ->
  pv' = PackageVersion.withSupported (optionsPresent install pkg pv layer) pv.
Proof.
  unfold probeLayer, optionsPresent.
  destruct (Package.PackageVersionKey pkg (PackageVersion.Index pv)); simpl; congruence.
Qed.

Lemma probeLayer_Ok (install : Install) (pkg : Package.t) (pv : PackageVersion.t)
  (layer : repository.Repository) :
  Package.Name pkg <> EmptyString ->
  probeLayer install pkg pv layer
  = Ok (PackageVersion.withSupported (optionsPresent install pkg pv layer) pv).
Proof.
  intros Hname. unfold probeLayer, optionsPresent.
  destruct (PackageVersionKey_Ok pkg (PackageVersion.Index pv) Hname) as [k ->].
  reflexivity.
Qed.

Lemma optionsPresent_withSupported (install : Install) (pkg : Package.t)
  (pv : PackageVersion.t) (b : bool) (layer : repository.Repository) :
  optionsPresent install pkg (PackageVersion.withSupported b pv) layer
  = optionsPresent install pkg pv layer.
Proof. reflexivity. Qed.

Lemma lastProbe_fields (install : Install) (pkg : Package.t)
  (layers : repository.RepositoryCollection) (pv : PackageVersion.t) :
  PackageVersion.Version (lastProbe install pkg layers pv) = PackageVersion.Version pv /\
  PackageVersion.Index (lastProbe install pkg layers pv) = PackageVersion.Index pv.
Proof. unfold lastProbe. by destruct (last layers). Qed.

Lemma probeLayers_Some (install : Install) (pkg : Package.t)
  (layers : repository.RepositoryCollection) (pv pv' : PackageVersion.t) :
  probeLayers install pkg layers pv = Ok pv' -> pv' = lastProbe install pkg layers pv.
Proof.
  unfold probeLayers, lastProbe. revert pv.
  induction layers as [|layer layers IH]; intros pv; simpl; [congruence|].
  destruct (probeLayer install pkg pv layer) as [pv1| |] eqn:E; simpl; try done.
  apply probeLayer_fields in E. intros H. apply IH in H. subst pv' pv1.
  rewrite last_cons. by destruct (last layers).
Qed.

Lemma probeLayers_Ok (install : Install) (pkg : Package.t)
  (layers : repository.RepositoryCollection) (pv : PackageVersion.t) :
  Package.Name pkg <> EmptyString \/ layers = [] ->
  probeLayers install pkg layers pv = Ok (lastProbe install pkg layers pv).
Proof.
  intros Hname.
  assert (exists pv', probeLayers install pkg layers pv = Ok pv') as [pv' E].
  { destruct Hname as [Hname| ->]; [|by eexists].
    unfold probeLayers. revert pv. induction layers as [|layer layers IH]; intros pv; simpl.
    - by eexists.
    - rewrite probeLayer_Ok by done. simpl. apply IH. }
  rewrite E. f_equal. by apply probeLayers_Some.
Qed.

Lemma probeLayers_Panic (install : Install) (pkg : Package.t)
  (layers : repository.RepositoryCollection) (pv : PackageVersion.t) :
  Package.Name pkg = EmptyString -> layers <> [] ->
  probeLayers install pkg layers pv = Panic.
Proof.
  intros Hname Hl. destruct layers as [|layer layers]; [done|].
  unfold probeLayers. simpl. unfold probeLayer.
  by rewrite PackageVersionKey_Panic.
Qed.

Lemma probeVersions_acc (install : Install) (pkg : Package.t)
  (layers : repository.RepositoryCollection)
  (init m versions : gmap string PackageVersion.t) (k : string) :
  map_fold (fun version pkgVersion acc =>
              versions ← acc;
              pkgVersion' ← probeLayers install pkg layers pkgVersion;
              Ok (<[version := pkgVersion']> versions)) (Ok init) m = Ok versions ->
  versions !! k = match m !! k with
                  | Some pv => Some (lastProbe install pkg layers pv)
                  | None => init !! k
                  end.
Proof.
  revert versions k.
  apply (map_fold_weak_ind
           (fun r (m : gmap string PackageVersion.t) =>
              forall versions k, r = Ok versions ->
                versions !! k = match m !! k with
                                | Some pv => Some (lastProbe install pkg layers pv)
                                | None => init !! k
                                end)).
  - intros versions k [= <-]. by rewrite lookup_empty.
  - intros i x m' r Hi IH versions k.
    destruct r as [vs| |]; simpl; try done.
    destruct (probeLayers install pkg layers x) as [pv'| |] eqn:E; simpl; try done.
    intros [= <-]. apply probeLayers_Some in E. subst pv'.
    destruct (decide (i = k)) as [->|Hne].
    + by rewrite !lookup_insert_eq.
    + rewrite !lookup_insert_ne by done. by apply IH.
Qed.

Lemma probeVersions_Some (install : Install) (pkg : Package.t)
  (layers : repository.RepositoryCollection) (versions : gmap string PackageVersion.t) :
  probeVersions install pkg layers = Ok versions ->
  versions = lastProbe install pkg layers <$> Package.Versions pkg.
Proof.
  intros H. apply map_eq. intros k. rewrite lookup_fmap.
  rewrite (probeVersions_acc _ _ _ _ _ _ k H).
  by destruct (Package.Versions pkg !! k).
Qed.

Lemma probeVersions_Ok (install : Install) (pkg : Package.t)
  (layers : repository.RepositoryCollection) :
  Package.Name pkg <> EmptyString \/ layers = [] ->
  probeVersions install pkg layers = Ok (lastProbe install pkg layers <$> Package.Versions pkg).
Proof.
  intros Hname.
  assert (exists versions, probeVersions install pkg layers = Ok versions) as [versions E].
  { unfold probeVersions.
    apply (map_fold_weak_ind
             (fun r (m : gmap string PackageVersion.t) => exists versions, r = Ok versions)).
    - by eexists.
    - intros i x m r _ [vs ->]. simpl. rewrite probeLayers_Ok by done. simpl. by eexists. }
  rewrite E. f_equal. by apply probeVersions_Some.
Qed.

(** [setSupportedVersions] never returns an error, and what it returns
    differs from its argument in the support flags only. *)
Lemma setSupportedVersions_Some (install : Install) (pkg pkg' : Package.t) :
  setSupportedVersions install pkg = Ok pkg' ->
  pkg' = pkg \/
  exists layers,
    LayerRepositories install = Ok layers /\
    pkg' = Package.withSupported
             (Package.HasSupportedVersion
                (Package.withVersions (lastProbe install pkg layers <$> Package.Versions pkg) pkg))
             (Package.withVersions (lastProbe install pkg layers <$> Package.Versions pkg) pkg).
Proof.
  unfold setSupportedVersions.
  destruct (LayerRepositories install) as [layers|e|]; [|left; congruence|done].
  destruct (probeVersions install pkg layers) as [versions| |] eqn:E; simpl; try done.
  apply probeVersions_Some in E. subst versions.
  intros [= <-]. right. by exists layers.
Qed.

Lemma setSupportedVersions_Ok (install : Install) (pkg : Package.t)
  (layers : repository.RepositoryCollection) :
  LayerRepositories install = Ok layers ->
  Package.Name pkg <> EmptyString \/ layers = [] ->
  setSupportedVersions install pkg
  = Ok (Package.withSupported
          (Package.HasSupportedVersion
             (Package.withVersions (lastProbe install pkg layers <$> Package.Versions pkg) pkg))
          (Package.withVersions (lastProbe install pkg layers <$> Package.Versions pkg) pkg)).
Proof.
  intros Hl Hname. unfold setSupportedVersions. rewrite Hl.
  by rewrite probeVersions_Ok.
Qed.

Lemma probeLayer_no_error (install : Install) (pkg : Package.t) (pv : PackageVersion.t)
  (layer : repository.Repository) (e : error) :
  probeLayer install pkg pv layer <> Err e.
Proof.
  unfold probeLayer, Package.PackageVersionKey, Package.PackageKey, Package.ContainerId.
  destruct (Package.Name pkg); done.
Qed.

Lemma probeLayers_no_error (install : Install) (pkg : Package.t)
  (layers : repository.RepositoryCollection) (pv : PackageVersion.t) (e : error) :
  probeLayers install pkg layers pv <> Err e.
Proof.
  unfold probeLayers. revert pv.
  induction layers as [|layer layers IH]; intros pv; simpl; [done|].
  destruct (probeLayer install pkg pv layer) as [pv1|e1|] eqn:E; simpl; [apply IH| |done].
  by apply probeLayer_no_error in E.
Qed.

Lemma setSupportedVersions_no_error (install : Install) (pkg : Package.t) (e : error) :
  setSupportedVersions install pkg <> Err e.
Proof.
  unfold setSupportedVersions.
  destruct (LayerRepositories install) as [layers| |]; try done.
  destruct (probeVersions install pkg layers) as [versions|e'|] eqn:E; simpl; try done.
  exfalso. revert E. unfold probeVersions.
  apply (map_fold_weak_ind
           (fun r (m : gmap string PackageVersion.t) => r <> Err e')); [done|].
  intros i x m r _ Hr. destruct r as [vs| |]; simpl; try done.
  destruct (probeLayers install pkg layers x) as [pv'|e1|] eqn:E; simpl; try done.
  by apply probeLayers_no_error in E.
Qed.

End Probing.

(** ** The packages of the catalog *)

Lemma ToPackage_lookup (e : packageIndexEntry.t) (k : string) :
  Package.Versions (packageIndexEntry.ToPackage e) !! k =
  (fun index => PackageVersion.mk k index false) <$> packageIndexEntry.Versions e !! k.
Proof.
  simpl. revert k.
  apply (map_fold_weak_ind
           (fun r (m : gmap string string) => forall k,
                r !! k = (fun index => PackageVersion.mk k index false) <$> m !! k)).
  - intros k. by rewrite !lookup_empty.
  - intros i x m r _ IH k. destruct (decide (i = k)) as [->|Hne].
    + by rewrite !lookup_insert_eq.
    + rewrite !lookup_insert_ne by done. apply IH.
Qed.

Lemma ToPackage_keyed (e : packageIndexEntry.t) : keyed (packageIndexEntry.ToPackage e).
Proof.
  intros k pv. rewrite ToPackage_lookup.
  destruct (packageIndexEntry.Versions e !! k); simpl; [|done]. by intros [= <-].
Qed.

Lemma ToPackage_unsupported (e : packageIndexEntry.t) :
  Package.HasSupportedVersion (packageIndexEntry.ToPackage e) = false.
Proof.
  apply not_true_is_false. rewrite HasSupportedVersion_true.
  intros (k & pv & Hk & Hs). rewrite ToPackage_lookup in Hk.
  destruct (packageIndexEntry.Versions e !! k); simplify_eq/=.
Qed.

Lemma withVersions_keyed `{pathJoin : !Go.PathJoin} `{goStrings : !Go.Strings} (install : Install) (pkg : Package.t)
  (layers : repository.RepositoryCollection) (b : bool) :
  keyed pkg ->
  keyed (Package.withSupported b
           (Package.withVersions (lastProbe install pkg layers <$> Package.Versions pkg) pkg)).
Proof.
  intros Hk k pv. simpl. rewrite lookup_fmap.
  destruct (Package.Versions pkg !! k) as [pv0|] eqn:E; simpl; [|done].
  intros [= <-]. destruct (lastProbe_fields install pkg layers pv0) as [-> _]. by apply Hk.
Qed.

(** A package as [getPackages] hands it to [setCurrentVersion]. *)
Lemma setSupportedVersions_ToPackage `{pathJoin : !Go.PathJoin} `{goStrings : !Go.Strings} (install : Install)
  (e : packageIndexEntry.t) (pkg : Package.t) :
  setSupportedVersions install (packageIndexEntry.ToPackage e) = Ok pkg ->
  keyed pkg /\
  Package.Supported pkg = Package.HasSupportedVersion pkg /\
  Package.Name pkg = packageIndexEntry.Name e /\
  Package.CurrentVersion pkg = packageIndexEntry.CurrentVersion e.
Proof.
  intros Hset. apply setSupportedVersions_Some in Hset as [->|(layers & _ & ->)].
  - split; [apply ToPackage_keyed|]. split; [|done].
    by rewrite ToPackage_unsupported.
  - split; [apply withVersions_keyed, ToPackage_keyed|]. done.
Qed.

(** ** The current version *)

Lemma withCurrentVersion_same (pkg : Package.t) :
  Package.withCurrentVersion (Package.CurrentVersion pkg) pkg = pkg.
Proof. by destruct pkg. Qed.

Lemma find_all {A : Type} (f : A -> bool) (l : list A) :
  (forall x, x ∈ l -> f x = true) -> List.find f l = head l.
Proof. intros H. destruct l as [|a l]; [done|]. simpl. by rewrite (H a) by left. Qed.

(** The last lines of [setCurrentVersion], for a package that has a
    supported version: some supported version with the greatest release
    index becomes the current one. *)
Lemma highestSupported_spec (pkg pkg' : Package.t) :
  Package.HasSupportedVersion pkg = true ->
  highestSupported pkg pkg' ->
  exists k pv,
    Package.Versions pkg !! k = Some pv /\
    PackageVersion.Supported pv = true /\
    pkg' = Package.withCurrentVersion (PackageVersion.Version pv) pkg /\
    forall k' pv', Package.Versions pkg !! k' = Some pv' ->
                   PackageVersion.Supported pv' = true ->
                   String.le (PackageVersion.Index pv') (PackageVersion.Index pv).
Proof.
  intros Hhas (versions & sorted & Hsup & Hsort & ->).
  assert (forall x, x ∈ sorted -> PackageVersion.Supported x = true) as Hall.
  { intros x Hx. rewrite (proj1 Hsort) in Hx.
    by apply (elem_of_SupportedVersions pkg versions x Hsup) in Hx as [_ ?]. }
  rewrite (find_all _ _ Hall).
  destruct (head sorted) as [pv|] eqn:Hhead.
  - destruct (sortSort_head versions sorted pv Hsort Hhead) as [Hin Hmax].
    apply (elem_of_SupportedVersions pkg versions pv Hsup) in Hin as [[k Hk] Hs].
    exists k, pv. repeat split; [done..|].
    intros k' pv' Hk' Hs'. apply Hmax.
    apply (elem_of_SupportedVersions pkg versions pv' Hsup). eauto.
  - apply (sortSort_nil versions) in Hhead; [|done]. subst versions.
    apply HasSupportedVersion_true in Hhas as (k & pv & Hk & Hs).
    assert (pv ∈ []) as Hin by (apply (elem_of_SupportedVersions pkg [] pv Hsup); eauto).
    by apply elem_of_nil in Hin.
Qed.

Lemma highestSupportedRun_sound (pkg : Package.t) :
  highestSupported pkg (highestSupportedRun pkg).
Proof.
  exists (Package.supportedOf (Package.versionList pkg)),
         (sortRun (Package.supportedOf (Package.versionList pkg))).
  split; [apply SupportedVersions_versionList|].
  split; [apply sortRun_sortSort|reflexivity].
Qed.

(** [setCurrentVersion] always returns. *)
Lemma setCurrentVersionRun_sound (pkg : Package.t) :
  setCurrentVersion pkg (setCurrentVersionRun pkg).
Proof.
  unfold setCurrentVersion, setCurrentVersionRun.
  destruct (negb (Package.Supported pkg) || negb (Package.HasSupportedVersion pkg)); [done|].
  destruct (Package.Versions pkg !! Package.CurrentVersion pkg) as [cv|];
    [destruct (PackageVersion.Supported cv); [done|]|]; apply highestSupportedRun_sound.
Qed.

(** The three ways through [setCurrentVersion]. *)
Lemma setCurrentVersion_cases (pkg pkg' : Package.t) :
  setCurrentVersion pkg pkg' ->
  (Package.Supported pkg = false \/ Package.HasSupportedVersion pkg = false) /\ pkg' = pkg \/
  (exists cv, Package.Supported pkg = true /\
              Package.Versions pkg !! Package.CurrentVersion pkg = Some cv /\
              PackageVersion.Supported cv = true) /\ pkg' = pkg \/
  (Package.Supported pkg = true /\ Package.HasSupportedVersion pkg = true /\
   (forall cv, Package.Versions pkg !! Package.CurrentVersion pkg = Some cv ->
               PackageVersion.Supported cv = false)) /\
  highestSupported pkg pkg'.
Proof.
  unfold setCurrentVersion.
  destruct (Package.Supported pkg) eqn:Es; simpl; [|by left; split; [left|]].
  destruct (Package.HasSupportedVersion pkg) eqn:Eh; simpl; [|by left; split; [right|]].
  destruct (Package.Versions pkg !! Package.CurrentVersion pkg) as [cv|] eqn:Ec.
  - destruct (PackageVersion.Supported cv) eqn:Ecv.
    + intros ->. right; left. split; [|done]. by exists cv.
    + intros H. right; right. split; [|done]. repeat split. by intros cv' [= <-].
  - intros H. right; right. split; [|done]. repeat split. done.
Qed.

Lemma setCurrentVersion_frame (pkg pkg' : Package.t) :
  setCurrentVersion pkg pkg' ->
  pkg' = Package.withCurrentVersion (Package.CurrentVersion pkg') pkg.
Proof.
  intros H. apply setCurrentVersion_cases in H as [[_ ->]|[[_ ->]|[(_ & Hhas & _) H]]];
    try by rewrite withCurrentVersion_same.
  apply highestSupported_spec in H as (k & pv & _ & _ & -> & _); done.
Qed.

(** C6, as the code has it.  [setCurrentVersion] leaves a package alone when
    it is not supported or has no supported version, and when its current
    version names a supported version.  In every other case the current
    version becomes that of a supported version whose release index no
    supported version exceeds; when several share that index the order of
    the run decides which of them it is. *)
Theorem setCurrentVersion_policy (pkg pkg' : Package.t) :
  setCurrentVersion pkg pkg' ->
  (Package.Supported pkg = false \/ Package.HasSupportedVersion pkg = false -> pkg' = pkg) /\
  (forall cv, Package.Versions pkg !! Package.CurrentVersion pkg = Some cv ->
              PackageVersion.Supported cv = true -> pkg' = pkg) /\
  (Package.Supported pkg = true -> Package.HasSupportedVersion pkg = true ->
   (forall cv, Package.Versions pkg !! Package.CurrentVersion pkg = Some cv ->
               PackageVersion.Supported cv = false) ->
   exists k pv,
     Package.Versions pkg !! k = Some pv /\
     PackageVersion.Supported pv = true /\
     pkg' = Package.withCurrentVersion (PackageVersion.Version pv) pkg /\
     forall k' pv', Package.Versions pkg !! k' = Some pv' ->
                    PackageVersion.Supported pv' = true ->
                    String.le (PackageVersion.Index pv') (PackageVersion.Index pv)).
Proof.
  intros H.
  apply setCurrentVersion_cases in H
    as [[Hun ->]|[[(cv & Hs & Hcv & Hcvs) ->]|[(Hs & Hhas & Hcur) H]]].
  - repeat split; try done.
    intros Hs Hhas _. destruct Hun; congruence.
  - repeat split; try done.
    intros _ _ Hno. specialize (Hno cv Hcv). congruence.
  - split; [intros [?|?]; congruence|].
    split; [intros cv Hcv Hcvs; specialize (Hcur cv Hcv); congruence|].
    intros _ _ _. by apply highestSupported_spec.
Qed.

(** The policy at work: 0.9 is current and unsupported, 1.0 (release index
    5) and 1.2 (release index 9) are supported. *)
Lemma setCurrentVersion_policy_witness :
  exists k pv,
    Package.Versions staleCurrent !! k = Some pv /\
    PackageVersion.Supported pv = true /\
    setCurrentVersionRun staleCurrent
    = Package.withCurrentVersion (PackageVersion.Version pv) staleCurrent /\
    forall k' pv', Package.Versions staleCurrent !! k' = Some pv' ->
                   PackageVersion.Supported pv' = true ->
                   String.le (PackageVersion.Index pv') (PackageVersion.Index pv).
Proof.
  apply (setCurrentVersion_policy staleCurrent (setCurrentVersionRun staleCurrent)).
  - apply setCurrentVersionRun_sound.
  - reflexivity.
  - vm_compute. reflexivity.
  - intros cv Hcv. vm_compute in Hcv. by injection Hcv as <-.
Defined.

(** In that package every run makes 1.2 the current version. *)
Example setCurrentVersion_staleCurrent (pkg' : Package.t) :
  setCurrentVersion staleCurrent pkg' -> Package.CurrentVersion pkg' = "1.2".
Proof.
  intros H. apply setCurrentVersion_cases in H as [[Hun _]|[[(cv & _ & Hcv & Hs) _]|[_ H]]].
  - destruct Hun as [Hun|Hun]; vm_compute in Hun; done.
  - vm_compute in Hcv. injection Hcv as <-. done.
  - apply highestSupported_spec in H as (k & pv & Hk & Hs & -> & Hmax);
      [|vm_compute; reflexivity].
    simpl.
    specialize (Hmax "1.2" (version "1.2" "9" true) eq_refl eq_refl).
    assert (pv ∈ Package.versionList staleCurrent) as Hin
        by (apply elem_of_versionList; eauto).
    vm_compute (Package.versionList staleCurrent) in Hin.
    repeat (apply elem_of_cons in Hin as [->|Hin]); try done.
    by apply elem_of_nil in Hin.
Qed.

Lemma setCurrentVersion_highest (pkg pkg' : Package.t) :
  Package.Supported pkg = true -> Package.HasSupportedVersion pkg = true ->
  (forall cv, Package.Versions pkg !! Package.CurrentVersion pkg = Some cv ->
              PackageVersion.Supported cv = false) ->
  highestSupported pkg pkg' -> setCurrentVersion pkg pkg'.
Proof.
  intros Hs Hhas Hcur H. unfold setCurrentVersion. rewrite Hs, Hhas. simpl.
  destruct (Package.Versions pkg !! Package.CurrentVersion pkg) as [cv|]; [|done].
  by rewrite (Hcur cv eq_refl).
Qed.

(** C6 fails as stated: ties are not broken in one fixed way.  With two
    supported versions of release index 5, one run makes "a" the current
    version and another run makes it "b". *)
Lemma setCurrentVersion_tie :
  setCurrentVersion tied (Package.withCurrentVersion "a" tied) /\
  setCurrentVersion tied (Package.withCurrentVersion "b" tied).
Proof.
  assert (Package.versionList tied = [version "a" "5" true; version "b" "5" true]) as E
      by (vm_compute; reflexivity).
  assert (forall x y, sortSort Less [version x "5" true; version y "5" true]
                        [version x "5" true; version y "5" true]) as Hsorted.
  { intros x y. split; [done|]. repeat constructor. }
  assert (forall pkg', highestSupported tied pkg' -> setCurrentVersion tied pkg') as Hgo.
  { intros pkg'. apply setCurrentVersion_highest; [reflexivity|vm_compute; reflexivity|].
    intros cv Hcv. vm_compute in Hcv. done. }
  split; apply Hgo.
  - exists [version "a" "5" true; version "b" "5" true],
           [version "a" "5" true; version "b" "5" true].
    split; [|split; [apply Hsorted|reflexivity]].
    exists [version "a" "5" true; version "b" "5" true]. split; [|reflexivity].
    unfold Package.PackageVersions. by rewrite E.
  - exists [version "b" "5" true; version "a" "5" true],
           [version "b" "5" true; version "a" "5" true].
    split; [|split; [apply Hsorted|reflexivity]].
    exists [version "b" "5" true; version "a" "5" true]. split; [|reflexivity].
    unfold Package.PackageVersions. rewrite E. apply perm_swap.
Qed.

Lemma setCurrentVersion_resolved (pkg pkg' : Package.t) :
  keyed pkg -> Package.Supported pkg = Package.HasSupportedVersion pkg ->
  setCurrentVersion pkg pkg' -> resolved pkg'.
Proof.
  intros Hkeyed Hflag H.
  assert (Package.Supported pkg = true <->
          exists k pv, Package.Versions pkg !! k = Some pv /\
                       PackageVersion.Supported pv = true) as Hiff
      by (rewrite Hflag; apply HasSupportedVersion_true).
  apply setCurrentVersion_cases in H as [[Hun ->]|[[(cv & Hs & Hcv & Hcvs) ->]|[(Hs & Hhas & _) H]]].
  - split; [done|]. intros Hs. destruct Hun; congruence.
  - split; [done|]. intros _. eauto.
  - apply highestSupported_spec in H as (k & pv & Hk & Hpv & -> & _); [|done].
    split; [done|]. intros _. simpl. exists pv.
    by rewrite (Hkeyed k pv Hk).
Qed.

(** ** The catalog *)

Section Catalog.
Context `{pathJoin : !Go.PathJoin} `{goStrings : !Go.Strings} `{json : !Json}.

Lemma catalog_Forall (install : Install) (P : packageIndexEntry.t -> Package.t -> Prop)
  (entries : list packageIndexEntry.t) (r : result PackageCollection) :
  (forall entry pkg pkg',
      setSupportedVersions install (packageIndexEntry.ToPackage entry) = Ok pkg ->
      setCurrentVersion pkg pkg' -> P entry pkg') ->
  catalog install entries r ->
  forall packages, r = Ok packages -> Forall2 P entries packages.
Proof.
  intros HP. induction 1 as [|entry entries Hp|entry entries pkg pkg' rest Hs Hc Hrest IH];
    intros packages Hr.
  - injection Hr as <-. constructor.
  - done.
  - destruct rest as [ps| |]; simplify_eq/=.
    constructor; [by eapply HP|by apply IH].
Qed.

Lemma catalog_no_error (install : Install) (entries : list packageIndexEntry.t)
  (r : result PackageCollection) (e : error) :
  catalog install entries r -> r <> Err e.
Proof.
  induction 1 as [| |entry entries pkg pkg' rest Hs Hc Hrest IH]; try done.
  destruct rest; simpl; congruence.
Qed.

(** The catalog loop always returns. *)
Lemma catalogRun_sound (install : Install) (entries : list packageIndexEntry.t) :
  catalog install entries (catalogRun install entries).
Proof.
  induction entries as [|entry entries IH]; simpl; [constructor|].
  destruct (setSupportedVersions install (packageIndexEntry.ToPackage entry))
    as [pkg|e|] eqn:E; simpl.
  - eapply catalog_cons; [done|apply setCurrentVersionRun_sound|done].
  - by apply setSupportedVersions_no_error in E.
  - by apply catalog_panic.
Qed.

Lemma getPackagesRun_sound (install : Install) :
  getPackages install (getPackagesRun install).
Proof.
  unfold getPackages, getPackagesRun.
  destruct (packageIndexEntries install); simpl; [apply catalogRun_sound|done..].
Qed.

Lemma getPackageByNameRun_sound (install : Install) (name : string) :
  getPackageByName install name (getPackageByNameRun install name).
Proof. exists (getPackagesRun install). split; [apply getPackagesRun_sound|done]. Qed.

(** C9.  Every package that [getPackages] returns is supported exactly when
    one of its versions is, and the current version of a supported package
    names a supported version. *)
Theorem getPackages_resolved (install : Install) (packages : PackageCollection) :
  getPackages install (Ok packages) -> Forall resolved packages.
Proof.
  unfold getPackages. intros H.
  destruct (packageIndexEntries install) as [entries| |]; [|done..].
  pose proof (catalog_Forall install (fun _ pkg => resolved pkg) entries (Ok packages)) as HF.
  eapply Forall2_Forall_r; [apply HF; [|done..]|].
  - intros entry pkg pkg' Hs Hc.
    apply setSupportedVersions_ToPackage in Hs as (Hk & Hf & _).
    by apply (setCurrentVersion_resolved pkg).
  - apply Forall_true. done.
Qed.

(** Every package of the catalog stores its versions under their own
    version strings, which is what version resolution relies on. *)
Lemma getPackages_keyed (install : Install) (packages : PackageCollection) :
  getPackages install (Ok packages) -> Forall keyed packages.
Proof.
  unfold getPackages. intros H.
  destruct (packageIndexEntries install) as [entries| |]; [|done..].
  pose proof (catalog_Forall install (fun _ pkg => keyed pkg) entries (Ok packages)) as HF.
  eapply Forall2_Forall_r; [apply HF; [|done..]|].
  - intros entry pkg pkg' Hs Hc.
    apply setSupportedVersions_ToPackage in Hs as (Hk & _).
    rewrite (setCurrentVersion_frame pkg pkg' Hc). exact Hk.
  - apply Forall_true. done.
Qed.

End Catalog.

(** The invariant on a catalog of one package whose options document lies
    in the last override layer. *)
Lemma getPackages_resolved_witness :
  exists packages,
    @getPackagesRun Go.joinClean Go.asciiStrings sampleJson optionsInLastLayer = Ok packages /\
    Forall resolved packages.
Proof.
  eexists. split; [vm_compute; reflexivity|].
  apply (@getPackages_resolved Go.joinClean Go.asciiStrings sampleJson optionsInLastLayer).
  match goal with
  | |- getPackages _ ?r =>
      replace r with (@getPackagesRun Go.joinClean Go.asciiStrings sampleJson optionsInLastLayer)
        by (vm_compute; reflexivity)
  end.
  apply getPackagesRun_sound.
Defined.

(** ** Version resolution *)

Section Resolution.
Context `{goStrings : !Go.Strings}.

Lemma FindPackageVersionRun_sound (p : Package.t) (v : string) :
  Package.FindPackageVersion p v (FindPackageVersionRun p v).
Proof. exists (Package.versionList p). split; [unfold Package.PackageVersions|]; reflexivity. Qed.

Lemma FindLatestPackageVersionRun_sound (p : Package.t) :
  Package.FindLatestPackageVersion p (FindLatestPackageVersionRun p).
Proof.
  exists (Package.versionList p), (sortRun (Package.versionList p)).
  split; [unfold Package.PackageVersions; reflexivity|].
  split; [apply sortRun_sortSort|reflexivity].
Qed.

(** The choice of the version always returns. *)
Lemma selectVersionRun_sound (pkg : Package.t) (name v : string) :
  selectVersion pkg name v (selectVersionRun pkg name v).
Proof.
  unfold selectVersionRun.
  pose proof (FindPackageVersionRun_sound pkg v) as Hf.
  pose proof (FindLatestPackageVersionRun_sound pkg) as Hl.
  destruct (FindPackageVersionRun pkg v); [by apply select_requested|].
  destruct (FindLatestPackageVersionRun pkg);
    [by apply select_latest|by apply select_none].
Qed.

(** A version that [FindPackageVersion] returns is one of the package and
    matches the request. *)
Lemma FindPackageVersion_Some (p : Package.t) (v : string) (pv : PackageVersion.t) :
  keyed p -> Package.FindPackageVersion p v (Some pv) ->
  Package.Versions p !! PackageVersion.Version pv = Some pv /\
  Go.EqualFold (PackageVersion.Version pv) (Go.TrimSpace v) = true.
Proof.
  intros Hkeyed (versions & Hperm & Hfind). symmetry in Hfind.
  apply find_some_elem in Hfind as [Hin Hm]. split; [|done].
  apply (elem_of_PackageVersions p versions pv Hperm) in Hin as [k Hk].
  by rewrite (Hkeyed k pv Hk).
Qed.

(** [FindPackageVersion] returns nil exactly when no version key matches, in
    every order. *)
Lemma FindPackageVersion_None (p : Package.t) (v : string) :
  keyed p -> Package.FindPackageVersion p v None ->
  forall k, is_Some (Package.Versions p !! k) -> Go.EqualFold k (Go.TrimSpace v) = false.
Proof.
  intros Hkeyed (versions & Hperm & Hfind) k [pv Hk]. symmetry in Hfind.
  rewrite find_none_elem in Hfind.
  rewrite <- (Hkeyed k pv Hk). apply (Hfind pv).
  apply (elem_of_PackageVersions p versions pv Hperm). eauto.
Qed.

Lemma FindLatestPackageVersion_Some (p : Package.t) (pv : PackageVersion.t) :
  keyed p -> Package.FindLatestPackageVersion p (Some pv) ->
  Package.Versions p !! PackageVersion.Version pv = Some pv /\
  forall k' pv', Package.Versions p !! k' = Some pv' ->
                 String.le (PackageVersion.Index pv') (PackageVersion.Index pv).
Proof.
  intros Hkeyed (versions & sorted & Hperm & Hsort & Hhead). symmetry in Hhead.
  destruct (sortSort_head versions sorted pv Hsort Hhead) as [Hin Hmax].
  apply (elem_of_PackageVersions p versions pv Hperm) in Hin as [k Hk].
  split; [by rewrite (Hkeyed k pv Hk)|].
  intros k' pv' Hk'. apply Hmax.
  apply (elem_of_PackageVersions p versions pv' Hperm). eauto.
Qed.

Lemma FindLatestPackageVersion_None (p : Package.t) :
  Package.FindLatestPackageVersion p None -> Package.Versions p = ∅.
Proof.
  intros (versions & sorted & Hperm & Hsort & Hhead). symmetry in Hhead.
  apply (sortSort_nil versions) in Hhead; [|done]. subst versions.
  apply versionList_nil. unfold Package.PackageVersions in Hperm.
  symmetry in Hperm. by apply Permutation_nil_r in Hperm.
Qed.

(** C5, as the code has it.  A request that, once trimmed, matches a
    version key without regard to case resolves to a version whose key
    matches, whether or not it is supported, and to the version of that key
    when it is the only match.  A request that matches no key resolves, in a
    package that has versions, to a version whose release index no version
    exceeds.  A package without versions gets the no-installable-version
    error.  The empty request is no exception: it matches the empty version
    key when the package has one. *)
Theorem selectVersion_policy (pkg : Package.t) (name v : string)
  (r : result PackageVersion.t) :
  keyed pkg -> selectVersion pkg name v r ->
  (forall k, is_Some (Package.Versions pkg !! k) ->
             Go.EqualFold k (Go.TrimSpace v) = true ->
     exists pv, r = Ok pv /\
       Package.Versions pkg !! PackageVersion.Version pv = Some pv /\
       Go.EqualFold (PackageVersion.Version pv) (Go.TrimSpace v) = true /\
       ((forall k', is_Some (Package.Versions pkg !! k') ->
                    Go.EqualFold k' (Go.TrimSpace v) = true -> k' = k) ->
        PackageVersion.Version pv = k)) /\
  ((forall k, is_Some (Package.Versions pkg !! k) ->
              Go.EqualFold k (Go.TrimSpace v) = false) ->
   Package.Versions pkg <> ∅ ->
     exists pv, r = Ok pv /\
       Package.Versions pkg !! PackageVersion.Version pv = Some pv /\
       forall k' pv', Package.Versions pkg !! k' = Some pv' ->
                      String.le (PackageVersion.Index pv') (PackageVersion.Index pv)) /\
  (Package.Versions pkg = ∅ ->
   r = Err ("Could not find installable version for " ++ name)).
Proof.
  intros Hkeyed Hsel.
  destruct Hsel as [pv Hfind|pv Hnone Hlatest|Hnone Hlatest].
  - apply FindPackageVersion_Some in Hfind as [Hpv Hm]; [|done].
    split; [|split].
    + intros k Hk Hmatch. exists pv. repeat split; try done.
      intros Huniq. apply Huniq; [by rewrite Hpv|done].
    + intros Hno _. rewrite (Hno (PackageVersion.Version pv)) in Hm; [done|by rewrite Hpv].
    + intros Hempty. by rewrite Hempty, lookup_empty in Hpv.
  - pose proof (FindPackageVersion_None pkg v Hkeyed Hnone) as Hno.
    apply FindLatestPackageVersion_Some in Hlatest as [Hpv Hmax]; [|done].
    split; [|split].
    + intros k Hk Hmatch. rewrite (Hno k Hk) in Hmatch. done.
    + intros _ _. by exists pv.
    + intros Hempty. by rewrite Hempty, lookup_empty in Hpv.
  - apply FindLatestPackageVersion_None in Hlatest.
    split; [|split]; [|done..].
    intros k Hk. rewrite Hlatest, lookup_empty in Hk. by destruct Hk.
Qed.

End Resolution.

(** The request " 1.0 " on a package whose latest version is 2.0 resolves
    to version 1.0; the request "3.0", which matches no version, resolves to
    the latest version. *)
Lemma selectVersion_policy_witness :
  FindLatestPackageVersionRun twoVersions = Some (version "2.0" "5" false) /\
  (exists pv,
     @selectVersionRun Go.asciiStrings twoVersions "zk" " 1.0 " = Ok pv /\
     PackageVersion.Version pv = "1.0") /\
  (exists pv,
     @selectVersionRun Go.asciiStrings twoVersions "zk" "3.0" = Ok pv /\
     forall k' pv', Package.Versions twoVersions !! k' = Some pv' ->
                    String.le (PackageVersion.Index pv') (PackageVersion.Index pv)).
Proof.
  assert (forall k pv, Package.Versions twoVersions !! k = Some pv ->
            (k = "1.0" /\ pv = version "1.0" "3" false) \/
            (k = "2.0" /\ pv = version "2.0" "5" false)) as Hcases.
  { intros k pv Hk.
    change (Package.Versions twoVersions)
      with (<["1.0" := version "1.0" "3" false]>
              ({[ "2.0" := version "2.0" "5" false ]} : gmap string PackageVersion.t)) in Hk.
    apply lookup_insert_Some in Hk as [[<- <-]|[_ Hk]]; [by left|].
    apply lookup_singleton_Some in Hk as [<- <-]. by right. }
  assert (keyed twoVersions) as Hkeyed.
  { intros k pv Hk. by destruct (Hcases k pv Hk) as [[-> ->]|[-> ->]]. }
  split; [vm_compute; reflexivity|]. split.
  - destruct (proj1 (@selectVersion_policy Go.asciiStrings twoVersions "zk" " 1.0 " _ Hkeyed
                       (@selectVersionRun_sound Go.asciiStrings twoVersions "zk" " 1.0 ")) "1.0")
      as (pv & Hr & _ & _ & Huniq).
    + exists (version "1.0" "3" false). reflexivity.
    + reflexivity.
    + exists pv. split; [exact Hr|]. apply Huniq.
      intros k' [pv' Hk'] Hm.
      destruct (Hcases k' pv' Hk') as [[-> _]|[-> _]]; [reflexivity|].
      vm_compute in Hm. discriminate Hm.
  - destruct (proj1 (proj2 (@selectVersion_policy Go.asciiStrings twoVersions "zk" "3.0" _ Hkeyed
                       (@selectVersionRun_sound Go.asciiStrings twoVersions "zk" "3.0"))))
      as (pv & Hr & _ & Hmax).
    + intros k [pv' Hk'].
      destruct (Hcases k pv' Hk') as [[-> _]|[-> _]]; vm_compute; reflexivity.
    + intros Hempty.
      assert (Package.Versions twoVersions !! "1.0" = Some (version "1.0" "3" false)) as H1
        by reflexivity.
      rewrite Hempty, lookup_empty in H1. discriminate H1.
    + exists pv. split; [exact Hr|exact Hmax].
Defined.

(** C5 fails as stated: the empty request is resolved to the version stored
    under the empty version string, of release index 1, although version
    2.0 has the greater release index 2. *)
Lemma selectVersion_empty_request :
  @selectVersion Go.asciiStrings emptyKey "zk" "" (Ok (version "" "1" false)) /\
  Package.Versions emptyKey !! "2.0" = Some (version "2.0" "2" false) /\
  String.ltb (PackageVersion.Index (version "" "1" false))
             (PackageVersion.Index (version "2.0" "2" false)) = true.
Proof.
  split; [|split; reflexivity].
  replace (Ok (version "" "1" false)) with (@selectVersionRun Go.asciiStrings emptyKey "zk" "")
    by (vm_compute; reflexivity).
  apply selectVersionRun_sound.
Qed.

(** ** Unknown package names *)

Section Unknown.
Context `{pathJoin : !Go.PathJoin} `{goStrings : !Go.Strings} `{json : !Json}.

Lemma setCurrentVersion_Name (pkg pkg' : Package.t) :
  setCurrentVersion pkg pkg' -> Package.Name pkg' = Package.Name pkg.
Proof. intros H. by rewrite (setCurrentVersion_frame pkg pkg' H). Qed.

Lemma find_Forall2_none {A B : Type} (f : A -> bool) (g : B -> bool)
  (l : list A) (k : list B) :
  Forall2 (fun a b => g b = f a) l k -> List.find f l = None -> List.find g k = None.
Proof.
  induction 1 as [|a b l k Hab _ IH]; [done|]. simpl. rewrite Hab.
  destruct (f a); [done|]. apply IH.
Qed.

(** No package of the catalog carries a name that no index entry has. *)
Lemma getPackageByName_unknown (install : Install) (name : string)
  (entries : list packageIndexEntry.t) (found : result (option Package.t)) :
  packageIndexEntries install = Ok entries ->
  List.find (fun e => Go.EqualFold (Go.TrimSpace name) (packageIndexEntry.Name e)) entries = None ->
  getPackageByName install name found -> found = Ok None \/ found = Panic.
Proof.
  intros Hentries Hnone (r & Hget & ->). unfold getPackages in Hget. rewrite Hentries in Hget.
  destruct r as [ps|e|]; simpl; [left|by apply (catalog_no_error _ _ _ e) in Hget|by right].
  f_equal. eapply find_Forall2_none; [|exact Hnone].
  eapply (catalog_Forall install
            (fun e p => Go.EqualFold (Go.TrimSpace name) (Package.Name p)
                        = Go.EqualFold (Go.TrimSpace name) (packageIndexEntry.Name e)));
    [|exact Hget|done].
  intros entry pkg pkg' Hs Hc. simpl.
  apply setSupportedVersions_ToPackage in Hs as (_ & _ & Hn & _).
  by rewrite (setCurrentVersion_Name pkg pkg' Hc), Hn.
Qed.

(** For a name that the package index does not have, every run of
    [GetPackageDefinition] ends in a panic. *)
Lemma GetPackageDefinition_unknown (install : Install) (name v : string)
  (entries : list packageIndexEntry.t) (r : result packageDefinition.t) :
  packageIndexEntries install = Ok entries ->
  List.find (fun e => Go.EqualFold (Go.TrimSpace name) (packageIndexEntry.Name e)) entries = None ->
  GetPackageDefinition install name v r -> r = Panic.
Proof.
  intros Hentries Hnone Hget.
  destruct Hget as [err H| | |pkg selected H _]; try done;
    by destruct (getPackageByName_unknown install name entries _ Hentries Hnone H).
Qed.

Lemma GetPackageDefinitionRun_sound (install : Install) (name v : string) :
  GetPackageDefinition install name v (GetPackageDefinitionRun install name v).
Proof.
  unfold GetPackageDefinitionRun.
  pose proof (getPackageByNameRun_sound install name) as H.
  destruct (getPackageByNameRun install name) as [[pkg|]|e|]; simpl.
  - by apply (get_package install name v pkg (selectVersionRun pkg name v));
      [|apply selectVersionRun_sound].
  - by apply get_nil_package.
  - by apply get_error.
  - by apply get_catalog_panic.
Qed.

End Unknown.

(** C4 fails on the code.  The catalog holds the package zk alone and the
    store answers every read; the name "nope" makes [GetPackageDefinition]
    panic, in the sample run and in every other. *)
Lemma GetPackageDefinition_nope_panics :
  @GetPackageDefinitionRun Go.joinClean Go.asciiStrings sampleJson twoConfigs "nope" "" = Panic /\
  @GetPackageDefinition Go.joinClean Go.asciiStrings sampleJson twoConfigs "nope" "" Panic /\
  forall r, @GetPackageDefinition Go.joinClean Go.asciiStrings sampleJson twoConfigs "nope" "" r ->
            r = Panic.
Proof.
  assert (@GetPackageDefinitionRun Go.joinClean Go.asciiStrings sampleJson twoConfigs "nope" ""
          = Panic) as E by (vm_compute; reflexivity).
  split; [exact E|]. split.
  - rewrite <- E. apply GetPackageDefinitionRun_sound.
  - intros r. apply (GetPackageDefinition_unknown _ _ _ [zkEntry]); vm_compute; reflexivity.
Qed.

(** ** The layer sequence *)

Lemma sortInts_sorted (idxs : list Z) : StronglySorted Z.le (repository.sortInts idxs).
Proof. apply (StronglySorted_merge_sort _). Qed.

Lemma named_sorted `{pathJoin : !Go.PathJoin} (client : consul.KV) (idxs : list Z) :
  StronglySorted Z.le idxs -> ascending (repository.named client idxs).
Proof.
  unfold ascending, repository.named.
  induction 1 as [|idx idxs Hs IH Hall]; simpl; [constructor|].
  destruct (repository.name client idx) as [n| |]; [|done..].
  constructor; [done|].
  apply Forall_forall. intros repo Hin.
  apply list_elem_of_omap in Hin as (idx' & Hin & Hrepo).
  rewrite Forall_forall in Hall. specialize (Hall idx' Hin).
  destruct (repository.name client idx'); simplify_eq/=. done.
Qed.

(** [Repositories] lists the layers in ascending order of their index. *)
Lemma Repositories_ascending `{pathJoin : !Go.PathJoin} (client : consul.KV)
  (repos : repository.RepositoryCollection) :
  repository.Repositories client = Ok repos -> ascending repos.
Proof.
  unfold repository.Repositories, repository.indexes.
  destruct (consul.Keys client _ _) as [keys [err|]]; simpl; [done|].
  intros [= <-]. apply named_sorted, sortInts_sorted.
Qed.

(** In an ascending sequence a layer of smaller position has no greater
    index. *)
Lemma ascending_lookup (repos : repository.RepositoryCollection) (i j : nat)
  (a b : repository.Repository) :
  ascending repos -> repos !! i = Some a -> repos !! j = Some b -> (i < j)%nat ->
  repository.Index a <= repository.Index b.
Proof.
  intros Hs. revert i j.
  induction Hs as [|r repos Hs IH Hall]; intros i j Hi Hj Hlt; [done|].
  destruct j as [|j]; [lia|]. destruct i as [|i]; simpl in Hi, Hj.
  - injection Hi as <-. rewrite Forall_forall in Hall.
    apply Hall. by apply list_elem_of_lookup_2 in Hj.
  - apply (IH i j); [done..|lia].
Qed.

(** ** Descriptor assembly *)

Section Assembly.
Context `{pathJoin : !Go.PathJoin} `{goStrings : !Go.Strings} `{json : !Json}.

(** What a layer stores depends on its index alone. *)
Lemma stored_Index (install : Install) (pkg : Package.t) (pv : PackageVersion.t)
  (repo repo' : repository.Repository) (doc : document) :
  repository.Index repo = repository.Index repo' ->
  stored install pkg pv repo doc = stored install pkg pv repo' doc.
Proof. intros H. unfold stored, repository.PackagesKey. by rewrite H. Qed.

Lemma collect_content (install : Install) (pkg : Package.t) (pv : PackageVersion.t)
  (d : packageDefinition.t) (repo : repository.Repository) :
  Package.Name pkg <> EmptyString ->
  exists d', collect install pkg pv d repo = Ok d' /\
    forall doc, content doc d' =
                if nonempty (stored install pkg pv repo doc)
                then stored install pkg pv repo doc
                else content doc d.
Proof.
  intros Hname. unfold collect, stored.
  destruct (PackageVersionKey_Ok pkg (PackageVersion.Index pv) Hname) as [k ->]. simpl.
  eexists. split; [reflexivity|]. by intros [].
Qed.

Lemma assemble_from (install : Install) (pkg : Package.t) (pv : PackageVersion.t)
  (repos : repository.RepositoryCollection) (d0 : packageDefinition.t) :
  Package.Name pkg <> EmptyString ->
  exists d, foldlM (collect install pkg pv) d0 repos = Ok d /\
    forall doc, content doc d = lastStored install pkg pv doc repos (content doc d0).
Proof.
  intros Hname. revert d0. unfold lastStored.
  induction repos as [|repo repos IH]; intros d0; simpl; [by eexists|].
  destruct (collect_content install pkg pv d0 repo Hname) as (d1 & -> & Hd1). simpl.
  destruct (IH d1) as (d & Hd & Hc). exists d. split; [done|].
  intros doc. by rewrite Hc, Hd1.
Qed.

Lemma lastStored_same (install : Install) (pkg : Package.t) (pv : PackageVersion.t)
  (doc : document) (repos : repository.RepositoryCollection) (init : bytes) :
  (forall repo, repo ∈ repos ->
     stored install pkg pv repo doc = [] \/ stored install pkg pv repo doc = init) ->
  lastStored install pkg pv doc repos init = init.
Proof.
  unfold lastStored. induction repos as [|repo repos IH]; intros H; simpl; [done|].
  destruct (H repo) as [E|E]; [left|rewrite E; simpl|rewrite E].
  - apply IH. intros repo' Hin. apply H. by right.
  - destruct (nonempty init); apply IH; intros repo' Hin; apply H; by right.
Qed.

Lemma lastStored_highest (install : Install) (pkg : Package.t) (pv : PackageVersion.t)
  (doc : document) (repos : repository.RepositoryCollection) (init : bytes)
  (repo : repository.Repository) :
  ascending repos -> repo ∈ repos ->
  stored install pkg pv repo doc <> [] ->
  (forall repo', repo' ∈ repos -> repository.Index repo < repository.Index repo' ->
                 stored install pkg pv repo' doc = []) ->
  lastStored install pkg pv doc repos init = stored install pkg pv repo doc.
Proof.
  intros Hsorted Hin Hne Habove. revert init.
  induction Hsorted as [|r0 repos Hs IH Hall]; intros init; [by apply elem_of_nil in Hin|].
  apply elem_of_cons in Hin as [<-|Hin].
  - unfold lastStored. simpl. apply nonempty_true in Hne as ->.
    apply lastStored_same. intros repo' Hin'.
    rewrite Forall_forall in Hall. specialize (Hall repo' Hin').
    destruct (decide (repository.Index repo = repository.Index repo')) as [E|E].
    + right. symmetry. by apply stored_Index.
    + left. apply Habove; [by right|lia].
  - unfold lastStored. simpl. apply IH; [done|].
    intros repo' Hin' Hlt. apply Habove; [by right|done].
Qed.

(** C7, as the code has it.  The layers are read in ascending order of
    their index; the base layer, index 0, comes before every override layer
    when no layer has a negative index.  For each of the five documents the
    assembled bundle holds what the layer of highest index that stores a
    non-empty document holds, whole; a document that no layer stores stays
    empty. *)
Theorem assemble_last_writer_wins (install : Install) (pkg : Package.t)
  (pv : PackageVersion.t) (repos : repository.RepositoryCollection) :
  Package.Name pkg <> EmptyString ->
  Repositories install = Ok repos ->
  ascending repos /\
  ((forall repo, repo ∈ repos -> 0 <= repository.Index repo) ->
   forall i j base layer,
     repos !! i = Some base -> repos !! j = Some layer ->
     repository.Index base = 0 -> repository.Index layer <> 0 -> (i < j)%nat) /\
  exists d, assemble install pkg pv repos = Ok d /\
    forall doc,
      ((forall repo, repo ∈ repos -> stored install pkg pv repo doc = []) ->
       content doc d = []) /\
      (forall repo, repo ∈ repos ->
         stored install pkg pv repo doc <> [] ->
         (forall repo', repo' ∈ repos -> repository.Index repo < repository.Index repo' ->
                        stored install pkg pv repo' doc = []) ->
         content doc d = stored install pkg pv repo doc).
Proof.
  intros Hname Hrepos.
  pose proof (Repositories_ascending (kv install) repos Hrepos) as Hsorted.
  split; [done|]. split.
  { intros Hpos i j base layer Hi Hj Hbase Hlayer.
    destruct (decide (i < j)%nat) as [|Hge]; [done|]. exfalso.
    destruct (decide (i = j)) as [->|Hne]; [congruence|].
    pose proof (ascending_lookup repos j i layer base Hsorted Hj Hi ltac:(lia)) as Hle.
    pose proof (Hpos layer (list_elem_of_lookup_2 _ _ _ Hj)). lia. }
  destruct (assemble_from install pkg pv repos (newDefinition pkg pv) Hname) as (d & Hd & Hc).
  exists d. split; [done|]. intros doc. rewrite Hc. split.
  - intros Hnone. replace (content doc (newDefinition pkg pv)) with ([] : bytes) by by destruct doc.
    apply lastStored_same. intros repo Hin. left. by apply Hnone.
  - intros repo Hin Hne Habove. by apply lastStored_highest.
Qed.

(** What [GetPackageDefinition] returns carries the assembled documents
    unchanged. *)
Lemma describe_content (install : Install) (pkg : Package.t) (pv : PackageVersion.t)
  (d' : packageDefinition.t) :
  describe install pkg pv = Ok d' ->
  exists repos d, Repositories install = Ok repos /\
    assemble install pkg pv repos = Ok d /\
    forall doc, content doc d' = content doc d.
Proof.
  unfold describe. intros H.
  apply bind_Ok in H as (repos & Hrepos & H).
  apply bind_Ok in H as (d & Hd & H).
  apply bind_Ok in H as (cfg & _ & [= <-]).
  exists repos, d. split; [done|split; [done|]].
  intros doc. unfold withFrameworkName.
  destruct (cfg !! "framework-name") as [[]|]; by destruct doc.
Qed.

End Assembly.

(** The base layer and layer 1 both store a [config.json] for zk 1.0; the
    assembled bundle holds the one of layer 1. *)
Lemma assemble_last_writer_wins_witness :
  exists d,
    @assemble Go.joinClean Go.asciiStrings twoConfigs (packageIndexEntry.ToPackage zkEntry)
      (version "1.0" "3" false)
      [ {| repository.Name := "base"; repository.Index := 0 |};
        {| repository.Name := "first"; repository.Index := 1 |};
        {| repository.Name := "second"; repository.Index := 2 |} ] = Ok d /\
    content ConfigDoc d = Go.bytesOf "{ }".
Proof.
  destruct (@assemble_last_writer_wins Go.joinClean Go.asciiStrings twoConfigs
              (packageIndexEntry.ToPackage zkEntry) (version "1.0" "3" false)
              [ {| repository.Name := "base"; repository.Index := 0 |};
                {| repository.Name := "first"; repository.Index := 1 |};
                {| repository.Name := "second"; repository.Index := 2 |} ])
    as (_ & _ & d & Hd & Hdoc).
  - done.
  - vm_compute. reflexivity.
  - exists d. split; [exact Hd|].
    rewrite (proj2 (Hdoc ConfigDoc) {| repository.Name := "first"; repository.Index := 1 |}).
    + vm_compute. reflexivity.
    + right. left.
    + vm_compute. done.
    + intros repo' Hin Hlt.
      repeat (apply elem_of_cons in Hin as [->|Hin]); simpl in Hlt; try lia;
        [vm_compute; reflexivity|by apply elem_of_nil in Hin].
Defined.

(** C7 fails as stated: the base layer is not always first.  A layer listed
    under the index -3 is an override layer and is read before the base
    layer, so the [config.json] of the base layer replaces the one of the
    override layer in the assembled bundle. *)
Lemma assemble_base_not_first :
  @Repositories Go.joinClean negativeLayer
  = Ok [ {| repository.Name := "override"; repository.Index := -3 |};
         {| repository.Name := "base"; repository.Index := 0 |} ] /\
  @LayerRepositories Go.joinClean negativeLayer
  = Ok [ {| repository.Name := "override"; repository.Index := -3 |} ] /\
  @stored Go.joinClean Go.asciiStrings negativeLayer (packageIndexEntry.ToPackage zkEntry)
    (version "1.0" "3" false)
    {| repository.Name := "override"; repository.Index := -3 |} ConfigDoc
  = Go.bytesOf "{ }" /\
  @stored Go.joinClean Go.asciiStrings negativeLayer (packageIndexEntry.ToPackage zkEntry)
    (version "1.0" "3" false)
    {| repository.Name := "base"; repository.Index := 0 |} ConfigDoc
  = Go.bytesOf "{}" /\
  content ConfigDoc
    <$> @assemble Go.joinClean Go.asciiStrings negativeLayer
          (packageIndexEntry.ToPackage zkEntry) (version "1.0" "3" false)
          [ {| repository.Name := "override"; repository.Index := -3 |};
            {| repository.Name := "base"; repository.Index := 0 |} ]
  = Ok (Go.bytesOf "{}") /\
  packageDefinition.configJson
    <$> @GetPackageDefinitionRun Go.joinClean Go.asciiStrings sampleJson negativeLayer "zk" "1.0"
  = Ok (Go.bytesOf "{}").
Proof. vm_compute. repeat split; reflexivity. Qed.

(** ** Support probing against the layers *)

(** After [setSupportedVersions] a version is flagged by the layer that was
    probed last, whatever the layers before it hold. *)
Lemma setSupportedVersions_last_layer `{pathJoin : !Go.PathJoin} `{goStrings : !Go.Strings} (install : Install)
  (pkg : Package.t) (layers : repository.RepositoryCollection)
  (k : string) (pv : PackageVersion.t) :
  LayerRepositories install = Ok layers ->
  Package.Name pkg <> EmptyString ->
  Package.Versions pkg !! k = Some pv ->
  exists pkg', setSupportedVersions install pkg = Ok pkg' /\
    Package.Versions pkg' !! k = Some (lastProbe install pkg layers pv).
Proof.
  intros Hl Hname Hk. eexists. split; [by apply setSupportedVersions_Ok; [|left]|].
  simpl. by rewrite lookup_fmap, Hk.
Qed.

(** C1 fails on the code.  The override layers are 1 and 2.  When layer 1
    holds the options document of zk 1.0 and layer 2 does not, the version
    and the package end up unsupported; when layer 2 holds it and layer 1
    does not, both end up supported.  Probing the same two layers in the
    other order turns the answer around. *)
Lemma setSupportedVersions_first_layer_lost :
  let first := {| repository.Name := "first"; repository.Index := 1 |} in
  let second := {| repository.Name := "second"; repository.Index := 2 |} in
  let zk := packageIndexEntry.ToPackage zkEntry in
  let flags (r : result Package.t) :=
    pkg ← r; Ok (Package.Supported pkg,
                 PackageVersion.Supported <$> Package.Versions pkg !! "1.0") in
  @LayerRepositories Go.joinClean optionsInFirstLayer = Ok [first; second] /\
  @optionsPresent Go.joinClean Go.asciiStrings optionsInFirstLayer zk (version "1.0" "3" false) first = true /\
  flags (@setSupportedVersions Go.joinClean Go.asciiStrings optionsInFirstLayer zk) = Ok (false, Some false) /\
  flags (@setSupportedVersions Go.joinClean Go.asciiStrings optionsInLastLayer zk) = Ok (true, Some true) /\
  PackageVersion.Supported <$>
    @probeLayers Go.joinClean Go.asciiStrings optionsInFirstLayer zk [first; second] (version "1.0" "3" false)
  = Ok false /\
  PackageVersion.Supported <$>
    @probeLayers Go.joinClean Go.asciiStrings optionsInFirstLayer zk [second; first] (version "1.0" "3" false)
  = Ok true.
Proof. vm_compute. repeat split; reflexivity. Qed.

End install.

(** * Package [repository]: properties *)

Module repositoryProperties.

(** ** Decimal indexes *)

Lemma digit_pretty_N_char (d : N) :
  (d < 10)%N -> Go.digit (pretty_N_char d) = Some (Z.of_N d).
Proof.
  intros Hd.
  assert (d = 0 \/ d = 1 \/ d = 2 \/ d = 3 \/ d = 4 \/ d = 5 \/ d = 6 \/ d = 7
          \/ d = 8 \/ d = 9)%N as H by lia.
  repeat (destruct H as [->|H]; [reflexivity|]); try (subst; reflexivity).
Qed.

Lemma digits_acc (s : string) (acc v : Z) :
  Go.digits 0 s = Some v ->
  Go.digits acc s = Some (acc * 10 ^ Z.of_nat (String.length s) + v).
Proof.
  revert acc v. induction s as [|c s IH]; intros acc v; simpl.
  - intros [= <-]. f_equal; lia.
  - destruct (Go.digit c) as [d|]; simpl; [|done].
    intros H.
    destruct (Go.digits 0 s) as [w|] eqn:E.
    + rewrite (IH (10 * 0 + d) w eq_refl) in H. injection H as <-.
      rewrite (IH (10 * acc + d) w eq_refl). f_equal.
      rewrite Nat2Z.inj_succ, Z.pow_succ_r by lia. lia.
    + assert (forall a, Go.digits a s = None) as Hnone.
      { clear -E. revert E. generalize 0. induction s as [|c s IH]; intros a; simpl; [done|].
        destruct (Go.digit c) as [d|]; simpl; [|done]. intros E b. eapply IH, E. }
      by rewrite Hnone in H.
Qed.

Lemma digits_pretty_N_go (x : N) (s : string) (v : Z) :
  Go.digits 0 s = Some v ->
  Go.digits 0 (pretty_N_go x s)
  = Some (Z.of_N x * 10 ^ Z.of_nat (String.length s) + v).
Proof.
  revert s v. induction (N.lt_wf_0 x) as [x _ IH]; intros s v Hs.
  destruct (decide (x = 0)%N) as [->|Hx].
  - rewrite pretty_N_go_0, Hs. f_equal; lia.
  - rewrite pretty_N_go_step by lia.
    rewrite (IH (x `div` 10)%N) with (v := Z.of_N (x `mod` 10) * 10 ^ Z.of_nat (String.length s) + v).
    + f_equal. simpl String.length. rewrite Nat2Z.inj_succ, Z.pow_succ_r by lia.
      rewrite (N.div_mod x 10) at 3 by done. lia.
    + apply N.div_lt; lia.
    + simpl. rewrite digit_pretty_N_char by (apply N.mod_lt; lia). simpl.
      rewrite (digits_acc s _ v Hs). f_equal; lia.
Qed.

Definition isDigit (c : ascii) : Prop := Go.between "0" "9" c = true.

Lemma pretty_N_char_isDigit (d : N) : isDigit (pretty_N_char d).
Proof. unfold pretty_N_char. by repeat case_match. Qed.

Fixpoint allDigits (s : string) : Prop :=
  match s with
  | EmptyString => True
  | String c s' => isDigit c /\ allDigits s'
  end.

Lemma pretty_N_go_allDigits (x : N) (s : string) :
  allDigits s -> allDigits (pretty_N_go x s).
Proof.
  revert s. induction (N.lt_wf_0 x) as [x _ IH]; intros s Hs.
  destruct (decide (x = 0)%N) as [->|Hx]; [by rewrite pretty_N_go_0|].
  rewrite pretty_N_go_step by lia. apply IH; [apply N.div_lt; lia|].
  split; [apply pretty_N_char_isDigit|done].
Qed.

Lemma pretty_N_go_nonempty (x : N) (s : string) :
  (0 < x)%N -> pretty_N_go x s <> EmptyString.
Proof.
  revert s. induction (N.lt_wf_0 x) as [x _ IH]; intros s Hx.
  rewrite pretty_N_go_step by done.
  destruct (decide (x `div` 10 = 0)%N) as [->|Hd]; [by rewrite pretty_N_go_0|].
  apply IH; [apply N.div_lt; lia|by apply N.neq_0_lt_0].
Qed.

Lemma Atoi_digits (c : ascii) (s : string) (v : Z) :
  isDigit c -> Go.digits 0 (String c s) = Some v ->
  Go.Atoi (String c s) = if bool_decide (- 2 ^ 63 <= v < 2 ^ 63) then Some v else None.
Proof.
  intros Hc Hv. unfold Go.Atoi.
  assert (c <> "-"%char /\ c <> "+"%char) as [H1 H2].
  { split; intros ->; discriminate Hc. }
  destruct c as [[] [] [] [] [] [] [] []]; try done; by rewrite Hv.
Qed.

Lemma pretty_pos (p : positive) :
  exists c s, pretty (N.pos p) = String c s /\ isDigit c /\
              Go.digits 0 (String c s) = Some (Z.pos p).
Proof.
  unfold pretty, pretty_N. rewrite decide_False by done.
  pose proof (pretty_N_go_allDigits (N.pos p) "" I) as Hall.
  pose proof (pretty_N_go_nonempty (N.pos p) "" eq_refl) as Hne.
  pose proof (digits_pretty_N_go (N.pos p) "" 0 eq_refl) as Hd.
  destruct (pretty_N_go (N.pos p) "") as [|c s]; [done|].
  exists c, s. split; [done|]. split; [apply Hall|].
  rewrite Hd. f_equal. simpl. lia.
Qed.

(** An index printed with [%d] reads back through [strconv.Atoi]. *)
Lemma Atoi_Sprintd (n : Z) :
  - 2 ^ 63 <= n < 2 ^ 63 -> Go.Atoi (Go.Sprintd n) = Some n.
Proof.
  intros Hn. unfold Go.Sprintd, pretty, pretty_Z. destruct n as [|p|p].
  - reflexivity.
  - destruct (pretty_pos p) as (c & s & Hp & Hc & Hd).
    unfold pretty, pretty_positive. rewrite Hp, (Atoi_digits c s _ Hc Hd).
    by rewrite bool_decide_true.
  - destruct (pretty_pos p) as (c & s & Hp & Hc & Hd).
    unfold pretty, pretty_positive. rewrite Hp. unfold Go.Atoi.
    change ("-" +:+ String c s) with (String "-" (String c s)). cbv beta iota.
    rewrite Hd. simpl. rewrite bool_decide_true by lia. done.
Qed.

(** ** Listed keys *)

Lemma append_cons (a : ascii) (s t : string) : String a s +:+ t = String a (s +:+ t).
Proof. reflexivity. Qed.

Lemma append_empty_l (t : string) : EmptyString +:+ t = t.
Proof. reflexivity. Qed.

Lemma append_assoc (s t u : string) : (s +:+ t) +:+ u = s +:+ (t +:+ u).
Proof. induction s as [|a s IH]; [done|]. by rewrite !append_cons, IH. Qed.

Lemma rev_app_rev_app (s acc b : string) :
  String.rev_app (String.rev_app s acc) b = String.rev_app acc (s +:+ b).
Proof.
  revert acc b. induction s as [|a s IH]; intros acc b; simpl; [done|].
  by rewrite IH, append_cons.
Qed.

Lemma rev_app_append (s t acc : string) :
  String.rev_app (s +:+ t) acc = String.rev_app t (String.rev_app s acc).
Proof.
  revert acc. induction s as [|a s IH]; intros acc; [done|].
  rewrite append_cons. simpl. apply IH.
Qed.

Lemma append_empty_r (s : string) : s +:+ EmptyString = s.
Proof. induction s as [|a s IH]; [done|]. by rewrite append_cons, IH. Qed.

Lemma TrimSuffixSlash_append (s : string) : Go.TrimSuffixSlash (s +:+ "/") = s.
Proof.
  unfold Go.TrimSuffixSlash.
  assert (String.rev (s +:+ "/") = String "/" (String.rev s)) as ->
      by (unfold String.rev; by rewrite rev_app_append).
  unfold String.rev. rewrite rev_app_rev_app. apply append_empty_r.
Qed.

Fixpoint noSlash (s : string) : Prop :=
  match s with
  | EmptyString => True
  | String c s' => c <> "/"%char /\ noSlash s'
  end.

Lemma SplitSlash_noSlash (s : string) : noSlash s -> Go.SplitSlash s = [s].
Proof.
  induction s as [|c s IH]; simpl; [done|]. intros [Hc Hs].
  rewrite bool_decide_false by done. by rewrite IH.
Qed.

Lemma SplitSlash_append (a t : string) :
  exists pre, pre <> [] /\
    Go.SplitSlash (a +:+ String "/" t) = (pre ++ Go.SplitSlash t)%list.
Proof.
  induction a as [|c a (pre & Hpre & IH)].
  - by exists [EmptyString].
  - rewrite append_cons. simpl. rewrite IH. destruct (bool_decide (c = "/"%char)).
    + by exists (EmptyString :: pre).
    + destruct pre as [|h pre]; [done|]. by exists (String c h :: pre).
Qed.

Lemma last_SplitSlash (a t : string) :
  noSlash t -> List.last (Go.SplitSlash (a +:+ String "/" t)) EmptyString = t.
Proof.
  intros Ht. destruct (SplitSlash_append a t) as (pre & _ & ->).
  rewrite SplitSlash_noSlash by done. apply List.last_last.
Qed.

Lemma allDigits_noSlash (s : string) : allDigits s -> noSlash s.
Proof.
  induction s as [|c s IH]; simpl; [done|]. intros [Hc Hs].
  split; [|by apply IH]. intros ->. discriminate Hc.
Qed.

Lemma Sprintd_noSlash (n : Z) : noSlash (Go.Sprintd n).
Proof.
  assert (forall p, noSlash (pretty (N.pos p))) as Hpos.
  { intros p. unfold pretty, pretty_N. rewrite decide_False by done.
    by apply allDigits_noSlash, pretty_N_go_allDigits. }
  unfold Go.Sprintd, pretty, pretty_Z. destruct n as [|p|p]; [done|apply Hpos|].
  split; [done|apply Hpos].
Qed.

(** The key under which the store lists layer [n]. *)
Definition listedKey (n : Z) : string :=
  repository.RepositoryRoot +:+ "/" +:+ Go.Sprintd n +:+ "/".

Lemma Atoi_listedKey (n : Z) :
  - 2 ^ 63 <= n < 2 ^ 63 ->
  Go.Atoi (List.last (Go.SplitSlash (Go.TrimSuffixSlash (listedKey n))) EmptyString) = Some n.
Proof.
  intros Hn. unfold listedKey.
  replace (repository.RepositoryRoot +:+ "/" +:+ Go.Sprintd n +:+ "/")
    with ((repository.RepositoryRoot +:+ String "/" (Go.Sprintd n)) +:+ "/")
    by (by rewrite append_assoc).
  rewrite TrimSuffixSlash_append, last_SplitSlash by apply Sprintd_noSlash.
  by apply Atoi_Sprintd.
Qed.

Lemma omap_cons_Some {A B : Type} (f : A -> option B) (x : A) (y : B) (l : list A) :
  f x = Some y -> omap f (x :: l) = y :: omap f l.
Proof. intros H. simpl. by rewrite H. Qed.

Lemma parseIndexes_listedKey (ns : list Z) :
  Forall (fun n => - 2 ^ 63 <= n < 2 ^ 63) ns ->
  repository.parseIndexes (listedKey <$> ns) = ns.
Proof.
  unfold repository.parseIndexes. induction 1 as [|n ns Hn _ IH]; [done|].
  rewrite fmap_cons, (omap_cons_Some _ _ n) by by apply Atoi_listedKey.
  by rewrite IH.
Qed.

Section Layers.
Context `{pathJoin : !Go.PathJoin} `{goStrings : !Go.Strings}.

(** X1.  When the store lists the keys [mantl-install/repository/<n>/] of
    64-bit integers [n] printed in decimal, [indexes] returns exactly those
    integers, in ascending order. *)
Theorem indexes_listed (client : consul.KV) (ns : list Z) :
  consul.Keys client (repository.RepositoryRoot ++ "/") "/" = (listedKey <$> ns, None) ->
  Forall (fun n => - 2 ^ 63 <= n < 2 ^ 63) ns ->
  exists idxs, repository.indexes client = Ok idxs /\
    idxs ≡ₚ ns /\ StronglySorted Z.le idxs.
Proof.
  intros Hkeys Hns. unfold repository.indexes. rewrite Hkeys.
  rewrite parseIndexes_listedKey by done.
  eexists. split; [done|]. split; [apply merge_sort_Permutation|].
  apply install.sortInts_sorted.
Qed.

End Layers.

Lemma indexes_listed_witness :
  exists idxs,
    repository.indexes (install.sampleStore install.threeLayers ["2"; "0"; "1"]) = Ok idxs /\
    idxs ≡ₚ [2; 0; 1] /\ StronglySorted Z.le idxs.
Proof.
  apply (indexes_listed (install.sampleStore install.threeLayers ["2"; "0"; "1"]) [2; 0; 1]).
  - reflexivity.
  - repeat constructor; done.
Defined.

(** ** The layer sequence *)

Section Sequence.
Context `{pathJoin : !Go.PathJoin} `{goStrings : !Go.Strings}.

Lemma elem_of_named (client : consul.KV) (idxs : list Z) (repo : repository.Repository) :
  repo ∈ repository.named client idxs <->
  repository.Index repo ∈ idxs /\
  repository.name client (repository.Index repo) = Ok (repository.Name repo).
Proof.
  unfold repository.named. rewrite list_elem_of_omap. split.
  - intros (idx & Hin & H). destruct (repository.name client idx) as [n| |] eqn:E; [|done..].
    injection H as <-. simpl. by rewrite E.
  - intros [Hin H]. exists (repository.Index repo). split; [done|].
    rewrite H. by destruct repo.
Qed.

(** The indexes of the repositories built by the loop of [Repositories]:
    the listed indexes whose name could be read, each as often as it is
    listed. *)
Lemma named_Index (client : consul.KV) (idxs : list Z) :
  repository.Index <$> repository.named client idxs
  = filter (fun idx => install.isOk (repository.name client idx) = true) idxs.
Proof.
  unfold repository.named. induction idxs as [|idx idxs IH]; [done|].
  destruct (repository.name client idx) as [n|e|] eqn:E.
  - rewrite filter_cons_True by by rewrite E.
    cbn [omap list_omap]. rewrite E. cbn [fmap list_fmap repository.Index]. by rewrite <- IH.
  - rewrite filter_cons_False by by rewrite E.
    cbn [omap list_omap]. by rewrite E.
  - rewrite filter_cons_False by by rewrite E.
    cbn [omap list_omap]. by rewrite E.
Qed.

(** X2.  [Repositories] fails only when the listing of the keys fails;
    otherwise it returns, in ascending order of index, one repository for
    every entry of the sorted list of indexes whose name could be read, with
    that name: an index that is listed several times (by the keys [1/] and
    [01/], say) is returned as many times.  An index whose name read failed
    is left out. *)
Theorem Repositories_members (client : consul.KV) :
  match repository.indexes client with
  | Ok idxs =>
      exists repos, repository.Repositories client = Ok repos /\
        install.ascending repos /\
        repository.Index <$> repos
        = filter (fun idx => install.isOk (repository.name client idx) = true) idxs /\
        forall repo, repo ∈ repos <->
          repository.Index repo ∈ idxs /\
          repository.name client (repository.Index repo) = Ok (repository.Name repo)
  | Err err => repository.Repositories client = Err err
  | Panic => repository.Repositories client = Panic
  end.
Proof.
  destruct (repository.indexes client) as [idxs|err|] eqn:E;
    unfold repository.Repositories; rewrite E; simpl; [|done..].
  eexists. split; [done|]. split; [|split; [apply named_Index|intros repo; apply elem_of_named]].
  apply (install.Repositories_ascending client).
  unfold repository.Repositories. by rewrite E.
Qed.

(** Three keys that spell the index 1 give three repositories of index
    1. *)
Example Repositories_spellings :
  @repository.Repositories Go.joinClean
    (install.sampleStore [ ("mantl-install/repository/1/name", "first") ] ["1"; "01"; "+1"])
  = Ok [ {| repository.Name := "first"; repository.Index := 1 |};
         {| repository.Name := "first"; repository.Index := 1 |};
         {| repository.Name := "first"; repository.Index := 1 |} ].
Proof. vm_compute. reflexivity. Qed.

(** X3.  A listed layer whose name key is missing, the read reporting no
    error, is kept with the empty name; a listed layer whose name read
    reports an error is dropped. *)
Theorem Repositories_missing_name (client : consul.KV)
  (repos : repository.RepositoryCollection) (idxs : list Z) (idx : Z) :
  repository.Repositories client = Ok repos ->
  repository.indexes client = Ok idxs ->
  idx ∈ idxs ->
  match consul.Get client
          (Go.Join [repository.RepositoryRoot; Go.Sprintd idx; "name"]) with
  | (_, Some _) => forall repo, repo ∈ repos -> repository.Index repo <> idx
  | (None, None) => {| repository.Name := EmptyString; repository.Index := idx |} ∈ repos
  | (Some kp, None) =>
      {| repository.Name := Go.stringOf (consul.Value kp); repository.Index := idx |} ∈ repos
  end.
Proof.
  unfold repository.Repositories. intros Hrepos Hidxs Hin.
  rewrite Hidxs in Hrepos. injection Hrepos as <-.
  destruct (consul.Get client _) as [[kp|] [err|]] eqn:E.
  - intros repo Hrepo <-. apply elem_of_named in Hrepo as [_ Hname].
    unfold repository.name in Hname. by rewrite E in Hname.
  - apply elem_of_named. split; [done|]. unfold repository.name. simpl. by rewrite E.
  - intros repo Hrepo <-. apply elem_of_named in Hrepo as [_ Hname].
    unfold repository.name in Hname. by rewrite E in Hname.
  - apply elem_of_named. split; [done|]. unfold repository.name. simpl. by rewrite E.
Qed.

(** X4.  The base layer found in the layer sequence and the base layer read
    directly agree, except when the name key of layer 0 is missing: the
    sequence then holds a base layer with the empty name, and
    [BaseRepository] returns nil without an error. *)
Theorem Base_BaseRepository (client : consul.KV)
  (repos : repository.RepositoryCollection) (base : repository.Repository) :
  repository.Repositories client = Ok repos ->
  repository.Base repos = Some base ->
  repository.BaseRepository client = Ok (Some base) \/
  (repository.BaseRepository client = Ok None /\ repository.Name base = EmptyString).
Proof.
  unfold repository.Repositories. intros Hrepos Hbase.
  destruct (repository.indexes client) as [idxs| |]; simplify_eq/=.
  unfold repository.Base in Hbase. apply head_Some_elem_of in Hbase.
  apply list_elem_of_filter in Hbase as [H0 Hin].
  apply elem_of_named in Hin as [_ Hname]. rewrite H0 in Hname.
  unfold repository.name in Hname. unfold repository.BaseRepository.
  change (Go.Sprintd 0) with "0" in Hname.
  destruct (consul.Get client _) as [[kp|] [err|]]; simplify_eq/=.
  - left. destruct base; simplify_eq/=. done.
  - right. done.
Qed.

Lemma StronglySorted_sublist {A : Type} (R : relation A) (l k : list A) :
  k `sublist_of` l -> StronglySorted R l -> StronglySorted R k.
Proof.
  induction 1 as [|x k l Hsub IH|x k l Hsub IH]; intros Hs; [done|..].
  - apply StronglySorted_inv in Hs as [Hs Hall]. constructor; [by apply IH|].
    apply Forall_forall. intros y Hy. rewrite Forall_forall in Hall.
    apply Hall. by eapply elem_of_sublist.
  - apply StronglySorted_inv in Hs as [Hs _]. by apply IH.
Qed.

(** The override layers are the repositories of the layer sequence whose
    index is not 0, still in ascending order of index. *)
Lemma LayersOf_spec (client : consul.KV) (layers : repository.RepositoryCollection) :
  repository.LayersOf client = Ok layers ->
  install.ascending layers /\
  forall repo, repo ∈ layers -> repository.Index repo <> 0.
Proof.
  unfold repository.LayersOf. intros H.
  apply install.bind_Ok in H as (repos & Hrepos & [= <-]).
  apply install.Repositories_ascending in Hrepos.
  unfold repository.Layers. split.
  - eapply StronglySorted_sublist; [apply sublist_filter|exact Hrepos].
  - intros repo Hin. apply list_elem_of_filter in Hin as [Hb _].
    unfold repository.IsBase in Hb. by apply bool_decide_eq_false in Hb.
Qed.

End Sequence.

(** Layer 5 is listed and has no name key. *)
Definition unnamedLayer : consul.KV :=
  install.sampleStore install.threeLayers ["0"; "5"].

Lemma Repositories_missing_name_witness :
  match consul.Get unnamedLayer
          (@Go.Join Go.joinClean [repository.RepositoryRoot; Go.Sprintd 5; "name"]) with
  | (_, Some _) =>
      forall repo,
        repo ∈ [ {| repository.Name := "base"; repository.Index := 0 |};
                 {| repository.Name := EmptyString; repository.Index := 5 |} ] ->
        repository.Index repo <> 5
  | (None, None) =>
      {| repository.Name := EmptyString; repository.Index := 5 |}
      ∈ [ {| repository.Name := "base"; repository.Index := 0 |};
          {| repository.Name := EmptyString; repository.Index := 5 |} ]
  | (Some kp, None) =>
      {| repository.Name := Go.stringOf (consul.Value kp); repository.Index := 5 |}
      ∈ [ {| repository.Name := "base"; repository.Index := 0 |};
          {| repository.Name := EmptyString; repository.Index := 5 |} ]
  end.
Proof.
  apply (@Repositories_missing_name Go.joinClean unnamedLayer _ [0; 5] 5).
  - vm_compute. reflexivity.
  - vm_compute. reflexivity.
  - right. left.
Defined.

Lemma Base_BaseRepository_witness :
  @repository.BaseRepository Go.joinClean (install.kv install.twoConfigs)
  = Ok (Some {| repository.Name := "base"; repository.Index := 0 |}) \/
  (@repository.BaseRepository Go.joinClean (install.kv install.twoConfigs) = Ok None /\
   repository.Name {| repository.Name := "base"; repository.Index := 0 |} = EmptyString).
Proof.
  apply (@Base_BaseRepository Go.joinClean (install.kv install.twoConfigs)
           [ {| repository.Name := "base"; repository.Index := 0 |};
             {| repository.Name := "first"; repository.Index := 1 |};
             {| repository.Name := "second"; repository.Index := 2 |} ]).
  - vm_compute. reflexivity.
  - reflexivity.
Defined.

End repositoryProperties.

(** * Package [install]: further properties *)

Module installProperties.
Import install.

(** ** Configuration merge *)

(** X5.  Merging with the empty map, on either side, gives the other map
    back. *)
Theorem mergeConfig_identity (config : gmap string value) :
  mergeConfig config ∅ = config /\ mergeConfig ∅ config = config.
Proof. split; [apply mergeConfig_empty_r|apply mergeConfig_empty_l]. Qed.

(** X6.  The merged map has the keys of both maps: no key of the base and no
    key of the override is dropped. *)
Theorem mergeConfig_dom (config override : gmap string value) :
  dom (mergeConfig config override) = dom config ∪ dom override.
Proof.
  apply set_eq. intros k. rewrite elem_of_union, !elem_of_dom.
  rewrite mergeConfig_lookup_entry.
  destruct (override !! k) as [v|]; split.
  - intros _. right. by eexists.
  - intros _. by eexists.
  - intros H. by left.
  - intros [H|[v Hv]]; [done|done].
Qed.

(** X7.  When no key holds a map on both sides the merge is the union of the
    two maps in which the override wins; in particular for maps with
    disjoint keys. *)
Theorem mergeConfig_union (config override : gmap string value) :
  (forall k c o, config !! k = Some (VObj c) -> override !! k = Some (VObj o) -> False) ->
  mergeConfig config override = override ∪ config.
Proof.
  intros Hno. apply map_eq. intros k.
  rewrite mergeConfig_lookup_entry, lookup_union.
  destruct (override !! k) as [v|] eqn:Eo; [|by rewrite (left_id_L None _)].
  destruct (config !! k) as [c|] eqn:Ec; simpl.
  - f_equal. destruct v; try done. destruct c; try done.
    by destruct (Hno k _ _ Ec Eo).
  - f_equal. by destruct v.
Qed.

Lemma mergeConfig_union_witness :
  mergeConfig {[ "cpus" := VNum 1 ]} {[ "mem" := VNum 512 ]}
  = ({[ "mem" := VNum 512 ]} : gmap string value) ∪ {[ "cpus" := VNum 1 ]}.
Proof.
  apply mergeConfig_union. intros k c o Hc Ho.
  apply lookup_singleton_Some in Hc as [_ Hc]. done.
Defined.

(** The nesting depth of the maps in a value. *)
Fixpoint depth (v : value) : nat :=
  match v with
  | VObj m => S (map_fold (fun _ v' acc => Nat.max (depth v') acc) 0%nat m)
  | _ => 0%nat
  end.

Lemma depth_lookup (m : gmap string value) (k : string) (v : value) :
  m !! k = Some v -> (depth v < depth (VObj m))%nat.
Proof.
  simpl. intros H. apply Nat.lt_succ_r. revert k v H.
  apply (map_fold_weak_ind
           (fun r (m : gmap string value) =>
              forall k v, m !! k = Some v -> (depth v <= r)%nat)).
  - intros k v. by rewrite lookup_empty.
  - intros i x m' r _ IH k v. destruct (decide (i = k)) as [->|Hne].
    + rewrite lookup_insert_eq. intros [= ->]. lia.
    + rewrite lookup_insert_ne by done. intros H. specialize (IH k v H). lia.
Qed.

(** Merging a map into itself changes nothing. *)
Lemma mergeConfig_self_depth (n : nat) (m : gmap string value) :
  (depth (VObj m) <= n)%nat -> mergeConfig m m = m.
Proof.
  revert m. induction n as [|n IH]; intros m Hn; [simpl in Hn; lia|].
  apply map_eq. intros k. rewrite mergeConfig_lookup_entry.
  destruct (m !! k) as [v|] eqn:E; [|done]. f_equal.
  destruct v as [| | | | |m']; try done.
  rewrite mergeEntry_maps. f_equal. apply IH.
  pose proof (depth_lookup m k _ E). lia.
Qed.

Lemma mergeConfig_self (m : gmap string value) : mergeConfig m m = m.
Proof. by apply (mergeConfig_self_depth (depth (VObj m))). Qed.

Lemma mergeConfig_twice_depth (n : nat) (config override : gmap string value) :
  (depth (VObj override) <= n)%nat ->
  mergeConfig (mergeConfig config override) override = mergeConfig config override.
Proof.
  revert config override. induction n as [|n IH]; intros config override Hn;
    [simpl in Hn; lia|].
  apply map_eq. intros k. rewrite (mergeConfig_lookup_entry (mergeConfig _ _)).
  destruct (override !! k) as [v|] eqn:E; [|done].
  rewrite mergeConfig_lookup_entry, E. f_equal.
  destruct v as [| | | | |o]; try done.
  destruct (config !! k) as [[| | | | |c]|]; rewrite ?mergeEntry_maps;
    try (simpl mergeEntry at 2; rewrite mergeEntry_maps, mergeConfig_self; reflexivity).
  f_equal. apply IH. pose proof (depth_lookup override k _ E). lia.
Qed.

(** X8.  Applying the same override a second time changes nothing. *)
Theorem mergeConfig_twice (config override : gmap string value) :
  mergeConfig (mergeConfig config override) override = mergeConfig config override.
Proof. by apply (mergeConfig_twice_depth (depth (VObj override))). Qed.

(** ** Defaults and the merged configuration *)

Lemma defaultConfig_lookup (g : packageConfigGroup.t) (k : string) :
  packageConfigGroup.defaultConfig g !! k =
  group ← packageConfigGroup.Properties g !! k;
  if negb (packageConfigGroup.isNil (packageConfigGroup.Default group))
  then Some (packageConfigGroup.Default group)
  else if bool_decide (packageConfigGroup.Type_ group = "object")
       then Some (VObj (packageConfigGroup.defaultConfig group))
       else None.
Proof.
  destruct g as [d ty ap props req mn df]. simpl. revert k.
  apply (map_fold_weak_ind
           (fun r (m : gmap string packageConfigGroup.t) => forall k,
                r !! k =
                group ← m !! k;
                if negb (packageConfigGroup.isNil (packageConfigGroup.Default group))
                then Some (packageConfigGroup.Default group)
                else if bool_decide (packageConfigGroup.Type_ group = "object")
                     then Some (VObj (packageConfigGroup.defaultConfig group))
                     else None)).
  - intros k. by rewrite !lookup_empty.
  - intros i x m r Hi IH k.
    destruct (decide (i = k)) as [->|Hne].
    + rewrite lookup_insert_eq. simpl.
      destruct (negb _); [by rewrite lookup_insert_eq|].
      destruct (bool_decide _); [by rewrite lookup_insert_eq|].
      by rewrite IH, Hi.
    + rewrite (lookup_insert_ne m) by done. rewrite <- IH.
      destruct (negb _); [by rewrite lookup_insert_ne|].
      destruct (bool_decide _); [by rewrite lookup_insert_ne|done].
Qed.

(** X9.  The defaults of a schema node have keys among its property names
    only, and none of them holds nil. *)
Theorem defaultConfig_keys (g : packageConfigGroup.t) :
  dom (packageConfigGroup.defaultConfig g) ⊆ dom (packageConfigGroup.Properties g) /\
  map_Forall (fun _ v => packageConfigGroup.isNil v = false)
             (packageConfigGroup.defaultConfig g).
Proof.
  split.
  - intros k. rewrite !elem_of_dom, defaultConfig_lookup.
    destruct (packageConfigGroup.Properties g !! k); simpl; [by eexists|].
    by intros [? ?].
  - intros k v. rewrite defaultConfig_lookup.
    destruct (packageConfigGroup.Properties g !! k) as [group|]; simpl; [|done].
    destruct (packageConfigGroup.isNil (packageConfigGroup.Default group)) eqn:E; simpl.
    + destruct (bool_decide _); [|done]. by intros [= <-].
    + by intros [= <-].
Qed.

Section Merged.
Context `{json : !Json}.

(** X10.  Without an options document the merged configuration is the
    defaults of the schema, and without a schema document either it is
    empty; neither case is an error. *)
Theorem MergedConfig_no_options (d : packageDefinition.t) :
  packageDefinition.optionsJson d = [] ->
  MergedConfig d = packageConfigGroup.defaultConfig <$> ConfigSchema d /\
  (packageDefinition.configJson d = [] -> MergedConfig d = Ok ∅).
Proof.
  intros Ho. unfold MergedConfig, Options, ConfigSchema. rewrite Ho. simpl.
  split.
  - destruct (nonempty (packageDefinition.configJson d)).
    + destruct (unmarshalSchema _); simpl; [|done..]. by rewrite mergeConfig_empty_r.
    + simpl. by rewrite mergeConfig_empty_r.
  - intros ->. simpl. by rewrite mergeConfig_empty_r.
Qed.

End Merged.

Lemma MergedConfig_no_options_witness :
  @MergedConfig sampleJson noCommand
  = packageConfigGroup.defaultConfig <$> @ConfigSchema sampleJson noCommand /\
  (packageDefinition.configJson noCommand = [] ->
   @MergedConfig sampleJson noCommand = Ok ∅).
Proof. apply (@MergedConfig_no_options sampleJson noCommand). reflexivity. Defined.

(** ** From the index to the catalog *)

(** X11.  [ToPackage] keeps the version strings of the index entry, each with
    its release index and not supported, and the package it builds is not
    supported either. *)
Theorem ToPackage_versions (e : packageIndexEntry.t) (k : string) :
  Package.Versions (packageIndexEntry.ToPackage e) !! k
  = (fun index => version k index false) <$> packageIndexEntry.Versions e !! k /\
  Package.Supported (packageIndexEntry.ToPackage e) = false /\
  Package.HasSupportedVersion (packageIndexEntry.ToPackage e) = false.
Proof.
  split; [apply ToPackage_lookup|]. split; [done|apply ToPackage_unsupported].
Qed.

Section Support.
Context `{pathJoin : !Go.PathJoin} `{goStrings : !Go.Strings}.

Lemma setSupportedVersions_fields (install : Install) (pkg pkg' : Package.t) :
  setSupportedVersions install pkg = Ok pkg' ->
  Package.Name pkg' = Package.Name pkg /\
  Package.Description pkg' = Package.Description pkg /\
  Package.Framework pkg' = Package.Framework pkg /\
  Package.CurrentVersion pkg' = Package.CurrentVersion pkg /\
  Package.Tags pkg' = Package.Tags pkg /\
  forall k,
    (fun pv => (PackageVersion.Version pv, PackageVersion.Index pv))
      <$> Package.Versions pkg' !! k
    = (fun pv => (PackageVersion.Version pv, PackageVersion.Index pv))
      <$> Package.Versions pkg !! k.
Proof.
  intros H. apply setSupportedVersions_Some in H as [->|(layers & _ & ->)]; [done|].
  repeat split. intros k. simpl. rewrite lookup_fmap.
  destruct (Package.Versions pkg !! k) as [pv|]; simpl; [|done].
  by destruct (lastProbe_fields install pkg layers pv) as [-> ->].
Qed.

(** X12.  What [setSupportedVersions] returns differs from its argument in
    support flags only: the same name, description, framework flag, current
    version and tags, and under every version string the same version and
    release index. *)
Theorem setSupportedVersions_frame (install : Install) (pkg pkg' : Package.t) :
  setSupportedVersions install pkg = Ok pkg' ->
  Package.Name pkg' = Package.Name pkg /\
  Package.Description pkg' = Package.Description pkg /\
  Package.Framework pkg' = Package.Framework pkg /\
  Package.CurrentVersion pkg' = Package.CurrentVersion pkg /\
  Package.Tags pkg' = Package.Tags pkg /\
  forall k,
    (fun pv => (PackageVersion.Version pv, PackageVersion.Index pv))
      <$> Package.Versions pkg' !! k
    = (fun pv => (PackageVersion.Version pv, PackageVersion.Index pv))
      <$> Package.Versions pkg !! k.
Proof. apply setSupportedVersions_fields. Qed.

Lemma lastProbe_nil (install : Install) (pkg : Package.t) (pv : PackageVersion.t) :
  lastProbe install pkg [] pv = pv.
Proof. reflexivity. Qed.

Lemma probe_fold_empty_name (install : Install) (pkg : Package.t)
  (layers : repository.RepositoryCollection) (init m : gmap string PackageVersion.t) :
  Package.Name pkg = EmptyString -> layers <> [] ->
  (m = ∅ ->
   exists vs, map_fold (fun version pkgVersion acc =>
                versions ← acc;
                pkgVersion' ← probeLayers install pkg layers pkgVersion;
                Ok (<[version := pkgVersion']> versions)) (Ok init) m = Ok vs) /\
  (m <> ∅ ->
   map_fold (fun version pkgVersion acc =>
                versions ← acc;
                pkgVersion' ← probeLayers install pkg layers pkgVersion;
                Ok (<[version := pkgVersion']> versions)) (Ok init) m = Panic).
Proof.
  intros Hname Hne.
  apply (map_fold_weak_ind
           (fun r (m : gmap string PackageVersion.t) =>
              (m = ∅ -> exists vs, r = Ok vs) /\ (m <> ∅ -> r = Panic))).
  - split; [by eexists|done].
  - intros i x m' r _ [Hempty Hpanic]. split.
    + intros H. by apply insert_non_empty in H.
    + intros _. destruct (decide (m' = ∅)) as [Hm|Hm].
      * destruct (Hempty Hm) as [vs ->]. simpl. by rewrite probeLayers_Panic.
      * by rewrite (Hpanic Hm).
Qed.

Lemma setSupportedVersions_empty_name (install : Install) (pkg : Package.t)
  (layers : repository.RepositoryCollection) :
  LayerRepositories install = Ok layers -> layers <> [] ->
  Package.Name pkg = EmptyString -> Package.Versions pkg <> ∅ ->
  setSupportedVersions install pkg = Panic.
Proof.
  intros Hl Hne Hname Hv. unfold setSupportedVersions. rewrite Hl.
  unfold probeVersions.
  by rewrite (proj2 (probe_fold_empty_name install pkg layers _ _ Hname Hne) Hv).
Qed.

Lemma ToPackage_nonempty (e : packageIndexEntry.t) :
  packageIndexEntry.Versions e <> ∅ ->
  Package.Versions (packageIndexEntry.ToPackage e) <> ∅.
Proof.
  intros Hne Hempty. apply Hne. apply map_eq. intros k.
  pose proof (ToPackage_lookup e k) as H. rewrite Hempty, !lookup_empty in H.
  rewrite lookup_empty. by destruct (packageIndexEntry.Versions e !! k).
Qed.

Lemma catalog_panics `{json : !Json} (install : Install)
  (entries : list packageIndexEntry.t) (e : packageIndexEntry.t)
  (r : result PackageCollection) :
  e ∈ entries ->
  setSupportedVersions install (packageIndexEntry.ToPackage e) = Panic ->
  catalog install entries r -> r = Panic.
Proof.
  intros Hin He.
  induction 1 as [|entry entries Hp|entry entries pkg pkg' rest Hs Hc Hrest IH].
  - by apply elem_of_nil in Hin.
  - done.
  - apply elem_of_cons in Hin as [->|Hin]; [congruence|].
    by rewrite (IH Hin).
Qed.

(** X13.  When there is an override layer to probe, one index entry with the
    empty name and at least one version makes the whole catalog build
    panic. *)
Theorem getPackages_empty_name `{json : !Json} (install : Install)
  (entries : list packageIndexEntry.t) (layers : repository.RepositoryCollection)
  (e : packageIndexEntry.t) (r : result PackageCollection) :
  packageIndexEntries install = Ok entries ->
  LayerRepositories install = Ok layers -> layers <> [] ->
  e ∈ entries ->
  packageIndexEntry.Name e = EmptyString -> packageIndexEntry.Versions e <> ∅ ->
  getPackages install r -> r = Panic.
Proof.
  intros Hentries Hl Hne Hin Hname Hv. unfold getPackages. rewrite Hentries.
  apply (catalog_panics install entries e); [done|].
  by apply (setSupportedVersions_empty_name install _ layers);
    [| | |apply ToPackage_nonempty].
Qed.

(** X14.  Without override layers, whether there are none or they cannot be
    listed, the catalog is the index itself: every entry converted by
    [ToPackage], nothing supported and every current version as declared. *)
Theorem getPackages_no_layers `{json : !Json} (install : Install)
  (entries : list packageIndexEntry.t) (packages : PackageCollection) :
  packageIndexEntries install = Ok entries ->
  (LayerRepositories install = Ok [] \/ isOk (LayerRepositories install) = false) ->
  getPackages install (Ok packages) ->
  packages = packageIndexEntry.ToPackage <$> entries.
Proof.
  intros Hentries Hl. unfold getPackages. rewrite Hentries. intros Hcat.
  assert (Forall2 (fun entry pkg => pkg = packageIndexEntry.ToPackage entry)
                  entries packages) as HF.
  { apply (catalog_Forall install _ entries (Ok packages)); [|done..].
    intros entry pkg pkg' Hs Hc.
    assert (pkg = packageIndexEntry.ToPackage entry) as ->.
    { apply setSupportedVersions_Some in Hs as [->|(layers & Hlayers & ->)]; [done|].
      destruct Hl as [Hl|Hl]; [|by rewrite Hlayers in Hl].
      rewrite Hl in Hlayers. injection Hlayers as <-.
      assert (lastProbe install (packageIndexEntry.ToPackage entry) []
              <$> Package.Versions (packageIndexEntry.ToPackage entry)
              = Package.Versions (packageIndexEntry.ToPackage entry)) as E.
      { apply map_eq. intros k. rewrite lookup_fmap.
        by destruct (Package.Versions _ !! k). }
      rewrite E.
      replace (Package.withVersions (Package.Versions (packageIndexEntry.ToPackage entry))
                 (packageIndexEntry.ToPackage entry))
        with (packageIndexEntry.ToPackage entry) by done.
      by rewrite ToPackage_unsupported. }
    apply setCurrentVersion_cases in Hc as [[_ ->]|[[(cv & Hsup & _) _]|[(Hsup & _) _]]];
      done. }
  clear Hcat Hentries. induction HF as [|entry pkg entries packages -> _ IH]; [done|].
  by rewrite fmap_cons, IH.
Qed.

(** X15.  With at least one override layer and a non-empty package name,
    every version is flagged by the override layer of the greatest index
    alone: supported exactly when that layer holds its options document,
    whatever the other layers hold. *)
Theorem setSupportedVersions_top_layer (install : Install) (pkg : Package.t)
  (layers : repository.RepositoryCollection) :
  LayerRepositories install = Ok layers -> layers <> [] ->
  Package.Name pkg <> EmptyString ->
  exists top pkg',
    top ∈ layers /\ repository.Index top <> 0 /\
    (forall layer, layer ∈ layers -> repository.Index layer <= repository.Index top) /\
    setSupportedVersions install pkg = Ok pkg' /\
    forall k, Package.Versions pkg' !! k
              = (fun pv => PackageVersion.withSupported
                             (optionsPresent install pkg pv top) pv)
                <$> Package.Versions pkg !! k.
Proof.
  intros Hl Hne Hname.
  destruct (repositoryProperties.LayersOf_spec (kv install) layers Hl) as [Hsorted Hnobase].
  destruct (last layers) as [top|] eqn:Etop; [|by apply last_None in Etop].
  apply last_Some in Etop as [front ->].
  exists top. eexists. split; [apply elem_of_app; right; left|].
  split; [apply Hnobase; apply elem_of_app; right; left|].
  split; [|split; [by apply (setSupportedVersions_Ok install pkg (front ++ [top])%list); [|left]|]].
  - intros layer Hin. apply elem_of_app in Hin as [Hin|Hin].
    + unfold ascending in Hsorted. apply StronglySorted_app in Hsorted as (H & _ & _).
      apply H; [done|left].
    + apply list_elem_of_singleton in Hin as ->. done.
  - intros k. simpl. rewrite lookup_fmap. unfold lastProbe. by rewrite last_snoc.
Qed.

End Support.

(** ** The current version, again *)

(** X16.  Resolving the current version a second time changes nothing. *)
Theorem setCurrentVersion_twice (pkg pkg' pkg'' : Package.t) :
  keyed pkg ->
  setCurrentVersion pkg pkg' -> setCurrentVersion pkg' pkg'' -> pkg'' = pkg'.
Proof.
  intros Hkeyed H1 H2.
  assert (Package.Supported pkg' = true ->
          Package.HasSupportedVersion pkg' = true ->
          exists cv, Package.Versions pkg' !! Package.CurrentVersion pkg' = Some cv /\
                     PackageVersion.Supported cv = true) as Hcur.
  { apply setCurrentVersion_cases in H1
      as [[Hun ->]|[[(cv & Hs & Hcv & Hcvs) ->]|[(Hs & Hhas & _) H1]]].
    - intros Hs Hhas. destruct Hun; congruence.
    - intros _ _. eauto.
    - intros _ _. apply highestSupported_spec in H1 as (k & pv & Hk & Hpv & -> & _); [|done].
      exists pv. simpl. by rewrite (Hkeyed k pv Hk). }
  apply setCurrentVersion_cases in H2 as [[_ ->]|[[_ ->]|[(Hs & Hhas & Hno) _]]]; try done.
  destruct (Hcur Hs Hhas) as (cv & Hcv & Hcvs). specialize (Hno cv Hcv). congruence.
Qed.

Lemma setCurrentVersion_twice_witness :
  setCurrentVersionRun (setCurrentVersionRun staleCurrent) = setCurrentVersionRun staleCurrent.
Proof.
  apply (setCurrentVersion_twice staleCurrent).
  - intros k pv Hk.
    assert (pv ∈ Package.versionList staleCurrent) as Hin
        by (apply elem_of_versionList; eauto).
    assert ((k, pv) ∈ map_to_list (Package.Versions staleCurrent)) as Hkv
        by (by apply elem_of_map_to_list).
    vm_compute (map_to_list (Package.Versions staleCurrent)) in Hkv.
    repeat (apply elem_of_cons in Hkv as [[= -> ->]|Hkv]; [reflexivity|]).
    by apply elem_of_nil in Hkv.
  - apply setCurrentVersionRun_sound.
  - apply setCurrentVersionRun_sound.
Defined.

(** ** The catalog, again *)

Section CatalogShape.
Context `{pathJoin : !Go.PathJoin} `{goStrings : !Go.Strings} `{json : !Json}.

(** X17.  [getPackages] returns one package for every entry of the index, in
    the order of the index, with the entry's name, description, framework
    flag and tags, and with the entry's version strings and release
    indexes. *)
Theorem getPackages_entries (install : Install)
  (entries : list packageIndexEntry.t) (packages : PackageCollection) :
  packageIndexEntries install = Ok entries ->
  getPackages install (Ok packages) ->
  Forall2 (fun entry pkg =>
             Package.Name pkg = packageIndexEntry.Name entry /\
             Package.Description pkg = packageIndexEntry.Description entry /\
             Package.Framework pkg = packageIndexEntry.Framework entry /\
             Package.Tags pkg = packageIndexEntry.Tags entry /\
             forall k, (fun pv => (PackageVersion.Version pv, PackageVersion.Index pv))
                         <$> Package.Versions pkg !! k
                       = (fun index => (k, index)) <$> packageIndexEntry.Versions entry !! k)
          entries packages.
Proof.
  intros Hentries. unfold getPackages. rewrite Hentries. intros Hcat.
  apply (catalog_Forall install _ entries (Ok packages)); [|done..].
  intros entry pkg pkg' Hs Hc.
  rewrite (setCurrentVersion_frame pkg pkg' Hc). simpl.
  apply setSupportedVersions_fields in Hs as (-> & -> & -> & _ & -> & Hv).
  repeat split. intros k. rewrite Hv, ToPackage_lookup.
  by destruct (packageIndexEntry.Versions entry !! k).
Qed.

(** X18.  [getPackages] reports an error exactly when reading the base index
    reports it: no failure while the override layers are probed surfaces as
    an error. *)
Theorem getPackages_error (install : Install) (err : error) :
  getPackages install (Err err) <-> packageIndexEntries install = Err err.
Proof.
  unfold getPackages. destruct (packageIndexEntries install) as [entries|e|].
  - split; [|done]. intros H. by apply (catalog_no_error _ _ _ err) in H.
  - split; intros H; congruence.
  - split; intros H; done.
Qed.

(** X19.  When the name key of the base layer is missing, the read reporting
    no error, the catalog is empty and no error is reported; the same holds
    when the base layer has a name and its package index is missing. *)
Theorem getPackages_missing_base (install : Install) (r : result PackageCollection) :
  consul.Get (kv install) (Go.Join [repository.RepositoryRoot; "0"; "name"]) = (None, None) \/
  (exists kp, consul.Get (kv install) (Go.Join [repository.RepositoryRoot; "0"; "name"])
              = (Some kp, None)) /\
  consul.Get (kv install)
    (Go.Join [repository.RepositoryRoot; "0"; "repo/meta/index.json"]) = (None, None) ->
  getPackages install r -> r = Ok [].
Proof.
  unfold getPackages, packageIndexEntries, BaseRepository, repository.BaseRepository.
  intros [->|[[kp ->] Hidx]].
  - by inversion 1.
  - unfold repository.PackageIndexKey. simpl repository.Index.
    change (Go.Sprintd 0) with "0". rewrite Hidx. by inversion 1.
Qed.

(** X20.  A package found by name is a package of the catalog whose name
    equals the trimmed request up to case, and the first such package. *)
Theorem getPackageByName_found (install : Install) (name : string) (pkg : Package.t) :
  getPackageByName install name (Ok (Some pkg)) ->
  Go.EqualFold (Go.TrimSpace name) (Package.Name pkg) = true /\
  exists before after,
    getPackages install (Ok (before ++ pkg :: after)%list) /\
    forall p, p ∈ before -> Go.EqualFold (Go.TrimSpace name) (Package.Name p) = false.
Proof.
  intros (r & Hget & Hr). destruct r as [ps| |]; simpl in Hr; [|done..].
  injection Hr as H0. symmetry in H0.
  assert (exists before after, ps = (before ++ pkg :: after)%list /\
            Go.EqualFold (Go.TrimSpace name) (Package.Name pkg) = true /\
            forall p, p ∈ before ->
                      Go.EqualFold (Go.TrimSpace name) (Package.Name p) = false)
    as (before & after & -> & Hm & Hb).
  { clear Hget. induction ps as [|p ps IH]; [done|]. simpl in H0.
    destruct (Go.EqualFold (Go.TrimSpace name) (Package.Name p)) eqn:E.
    - injection H0 as ->. exists [], ps. repeat split; [done|]. intros p' Hp'.
      by apply elem_of_nil in Hp'.
    - destruct (IH H0) as (before & after & -> & Hm & Hb).
      exists (p :: before), after. repeat split; [done|].
      intros p' Hp'. apply elem_of_cons in Hp' as [->|Hp']; [done|by apply Hb]. }
  split; [done|]. by exists before, after.
Qed.

Lemma find_ext {A : Type} (f g : A -> bool) (l : list A) :
  (forall a, f a = g a) -> List.find f l = List.find g l.
Proof. intros H. induction l as [|a l IH]; simpl; [done|]. by rewrite H, IH. Qed.

(** X21.  [strings.EqualFold] is an equivalence of strings.  Given that it
    is symmetric and transitive, two requests whose trimmed names are equal
    up to case find the same package. *)
Theorem getPackageByName_fold (install : Install) (name name' : string)
  (r : result (option Package.t)) :
  (forall s t, Go.EqualFold s t = true -> Go.EqualFold t s = true) ->
  (forall s t u, Go.EqualFold s t = true -> Go.EqualFold t u = true ->
                 Go.EqualFold s u = true) ->
  Go.EqualFold (Go.TrimSpace name) (Go.TrimSpace name') = true ->
  getPackageByName install name r -> getPackageByName install name' r.
Proof.
  intros Hsym Htrans Hfold (ps & Hget & ->). exists ps. split; [done|].
  destruct ps as [ps| |]; simpl; [|done..]. f_equal.
  apply find_ext. intros p.
  destruct (Go.EqualFold (Go.TrimSpace name') (Package.Name p)) eqn:E.
  - by apply (Htrans _ (Go.TrimSpace name')).
  - destruct (Go.EqualFold (Go.TrimSpace name) (Package.Name p)) eqn:E'; [|done].
    rewrite <- E. symmetry. apply (Htrans _ (Go.TrimSpace name)); [by apply Hsym|done].
Qed.

End CatalogShape.

(** ** The package definition *)

Section Definitions.
Context `{pathJoin : !Go.PathJoin} `{goStrings : !Go.Strings} `{json : !Json}.

Lemma selectVersion_member (pkg : Package.t) (name v : string) (pv : PackageVersion.t) :
  keyed pkg -> selectVersion pkg name v (Ok pv) ->
  Package.Versions pkg !! PackageVersion.Version pv = Some pv.
Proof.
  intros Hkeyed H. inversion H as [pv' Hf|pv' Hn Hl|]; subst.
  - by apply FindPackageVersion_Some in Hf as [? _].
  - by apply FindLatestPackageVersion_Some in Hl as [? _].
Qed.

Lemma describe_fields (install : Install) (pkg : Package.t) (pv : PackageVersion.t)
  (d : packageDefinition.t) :
  describe install pkg pv = Ok d ->
  packageDefinition.name d = Package.Name pkg /\
  packageDefinition.version d = PackageVersion.Version pv /\
  packageDefinition.release d = PackageVersion.Index pv /\
  packageDefinition.framework d = Package.Framework pkg /\
  exists config,
    MergedConfig d = Ok config /\
    packageDefinition.frameworkName d
    = match config !! "framework-name" with
      | Some (VStr fwName) => fwName
      | _ => EmptyString
      end.
Proof.
  unfold describe. intros H.
  apply bind_Ok in H as (repos & _ & H).
  apply bind_Ok in H as (d0 & Hd0 & H).
  apply bind_Ok in H as (config & Hcfg & [= <-]).
  assert (packageDefinition.name d0 = Package.Name pkg /\
          packageDefinition.version d0 = PackageVersion.Version pv /\
          packageDefinition.release d0 = PackageVersion.Index pv /\
          packageDefinition.framework d0 = Package.Framework pkg /\
          packageDefinition.frameworkName d0 = EmptyString) as (Hn & Hv & Hr & Hf & Hfw).
  { revert Hd0. unfold assemble.
    assert (packageDefinition.name (newDefinition pkg pv) = Package.Name pkg /\
            packageDefinition.version (newDefinition pkg pv) = PackageVersion.Version pv /\
            packageDefinition.release (newDefinition pkg pv) = PackageVersion.Index pv /\
            packageDefinition.framework (newDefinition pkg pv) = Package.Framework pkg /\
            packageDefinition.frameworkName (newDefinition pkg pv) = EmptyString) as Hinit
        by done.
    revert Hinit. generalize (newDefinition pkg pv).
    induction repos as [|repo repos IH]; intros d1 Hinit; simpl.
    - by intros [= <-].
    - intros H. apply bind_Ok in H as (d2 & Hd2 & H). apply (IH d2); [|done].
      unfold collect in Hd2. apply bind_Ok in Hd2 as (k & _ & [= <-]). exact Hinit. }
  assert (MergedConfig (withFrameworkName config d0) = MergedConfig d0) as Hsame.
  { unfold withFrameworkName. by destruct (config !! "framework-name") as [[]|]. }
  assert (packageDefinition.name (withFrameworkName config d0) = packageDefinition.name d0 /\
          packageDefinition.version (withFrameworkName config d0)
          = packageDefinition.version d0 /\
          packageDefinition.release (withFrameworkName config d0)
          = packageDefinition.release d0 /\
          packageDefinition.framework (withFrameworkName config d0)
          = packageDefinition.framework d0) as (-> & -> & -> & ->).
  { unfold withFrameworkName. by destruct (config !! "framework-name") as [[]|]. }
  repeat split; try done.
  exists config. rewrite Hsame. split; [done|].
  unfold withFrameworkName. by destruct (config !! "framework-name") as [[]|].
Qed.

(** X22.  A definition that [GetPackageDefinition] returns describes a
    package of the catalog whose name equals the trimmed request up to case
    and one of that package's versions: it carries the catalog's spelling of
    the name, the version string, the release index of that version and the
    framework flag. *)
Theorem GetPackageDefinition_fields (install : Install) (name v : string)
  (d : packageDefinition.t) :
  GetPackageDefinition install name v (Ok d) ->
  exists pkg pv,
    getPackageByName install name (Ok (Some pkg)) /\
    Package.Versions pkg !! packageDefinition.version d = Some pv /\
    Go.EqualFold (Go.TrimSpace name) (packageDefinition.name d) = true /\
    packageDefinition.name d = Package.Name pkg /\
    packageDefinition.release d = PackageVersion.Index pv /\
    packageDefinition.framework d = Package.Framework pkg.
Proof.
  intros H. inversion H as [| | |pkg selected Hfound Hsel Hd]; subst.
  destruct selected as [pv| |]; [|done..]. simpl in Hd.
  apply describe_fields in Hd as (Hn & Hv & Hr & Hf & _).
  assert (keyed pkg) as Hkeyed.
  { destruct Hfound as (r & Hget & Hr'). destruct r as [ps| |]; simpl in Hr'; [|done..].
    injection Hr' as Hfind. symmetry in Hfind. apply find_some_elem in Hfind as [Hin _].
    apply getPackages_keyed in Hget. rewrite Forall_forall in Hget. by apply Hget. }
  exists pkg, pv. split; [done|].
  split; [rewrite Hv; by apply (selectVersion_member pkg name v)|].
  split; [|done]. rewrite Hn.
  destruct Hfound as (r & Hget & Hr'). destruct r as [ps| |]; simpl in Hr'; [|done..].
  injection Hr' as Hfind. symmetry in Hfind. by apply find_some_elem in Hfind as [_ ?].
Qed.

(** X23.  The framework name of a returned definition is the string that
    the merged configuration of its documents holds under
    [framework-name], and empty when there is none or it is no string. *)
Theorem GetPackageDefinition_frameworkName (install : Install) (name v : string)
  (d : packageDefinition.t) :
  GetPackageDefinition install name v (Ok d) ->
  exists config,
    MergedConfig d = Ok config /\
    packageDefinition.frameworkName d
    = match config !! "framework-name" with
      | Some (VStr fwName) => fwName
      | _ => EmptyString
      end.
Proof.
  intros H. inversion H as [| | |pkg selected Hfound Hsel Hd]; subst.
  destruct selected as [pv| |]; [|done..]. simpl in Hd.
  by apply describe_fields in Hd as (_ & _ & _ & _ & ?).
Qed.

Lemma lastStored_nonempty (install : Install) (pkg : Package.t) (pv : PackageVersion.t)
  (doc : document) (repos : repository.RepositoryCollection) (init : bytes) :
  lastStored install pkg pv doc repos init <> [] <->
  init <> [] \/ exists repo, repo ∈ repos /\ stored install pkg pv repo doc <> [].
Proof.
  unfold lastStored. revert init. induction repos as [|repo repos IH]; intros init; simpl.
  - split; [by left|]. intros [?|(repo & Hin & _)]; [done|by apply elem_of_nil in Hin].
  - rewrite IH. destruct (nonempty (stored install pkg pv repo doc)) eqn:E.
    + apply nonempty_true in E. split; [|by left].
      intros _. right. exists repo. split; [left|done].
    + apply not_true_iff_false in E. rewrite nonempty_true in E.
      split.
      * intros [?|(repo' & Hin & Hne)]; [by left|]. right. exists repo'. split; [by right|done].
      * intros [?|(repo' & Hin & Hne)]; [by left|].
        apply elem_of_cons in Hin as [->|Hin]; [done|]. right. by exists repo'.
Qed.

(** X24.  A bundle assembled over the layers is valid exactly when, for the
    configuration schema, for the deployment template and for the package
    metadata, some layer stores a non-empty document. *)
Theorem assemble_IsValid (install : Install) (pkg : Package.t) (pv : PackageVersion.t)
  (repos : repository.RepositoryCollection) (d : packageDefinition.t) :
  assemble install pkg pv repos = Ok d ->
  Package.Name pkg <> EmptyString ->
  packageDefinition.IsValid d = true <->
  forall doc, doc ∈ [ConfigDoc; MarathonDoc; PackageDoc] ->
              exists repo, repo ∈ repos /\ stored install pkg pv repo doc <> [].
Proof.
  intros Hd Hname.
  destruct (assemble_from install pkg pv repos (newDefinition pkg pv) Hname) as (d' & Hd' & Hc).
  unfold assemble in Hd. rewrite Hd in Hd'. injection Hd' as <-.
  assert (forall doc, content doc d <> [] <->
            exists repo, repo ∈ repos /\ stored install pkg pv repo doc <> []) as Hdoc.
  { intros doc. rewrite Hc, lastStored_nonempty. split; [|by right].
    intros [Hinit|?]; [|done]. by destruct doc. }
  unfold packageDefinition.IsValid. rewrite !andb_true_iff, !nonempty_true.
  split.
  - intros [[H1 H2] H3] doc Hin.
    repeat (apply elem_of_cons in Hin as [->|Hin]); [by apply (Hdoc ConfigDoc)
      |by apply (Hdoc MarathonDoc)|by apply (Hdoc PackageDoc)|by apply elem_of_nil in Hin].
  - intros H. repeat split.
    + apply (Hdoc ConfigDoc), H. left.
    + apply (Hdoc MarathonDoc), H. right; left.
    + apply (Hdoc PackageDoc), H. right; right; left.
Qed.

End Definitions.

(** ** The properties on the sample stores *)

(** The base layer alone. *)
Definition baseOnly : Install :=
  {| kv := sampleStore threeLayers ["0"] |}.

(** The store of [optionsInLastLayer] with an index that lists an entry
    without a name next to zk. *)
Definition unnamedInIndex : Install :=
  {| kv := sampleStore
       [ ("mantl-install/repository/0/name", "base");
         ("mantl-install/repository/1/name", "first");
         ("mantl-install/repository/2/name", "second");
         ("mantl-install/repository/0/repo/meta/index.json", unnamedIndexJson);
         ("mantl-install/repository/2/repo/packages/Z/zk/3/mantl.json", "{}") ]
       ["0"; "1"; "2"] |}.

(** The base layer holds the configuration schema and the deployment
    template of zk 1.0, layer 1 its package metadata. *)
Definition threeDocuments : Install :=
  {| kv := sampleStore
       (("mantl-install/repository/0/repo/packages/Z/zk/3/config.json", "{}") ::
        ("mantl-install/repository/0/repo/packages/Z/zk/3/marathon.json", "{}") ::
        ("mantl-install/repository/1/repo/packages/Z/zk/3/package.json", "{}") ::
        threeLayers)
       ["0"; "1"; "2"] |}.

(** A store that holds nothing. *)
Definition emptyStore : Install := {| kv := sampleStore [] [] |}.

Definition sampleLayers : repository.RepositoryCollection :=
  [ {| repository.Name := "first"; repository.Index := 1 |};
    {| repository.Name := "second"; repository.Index := 2 |} ].

Definition sampleRepositories : repository.RepositoryCollection :=
  {| repository.Name := "base"; repository.Index := 0 |} :: sampleLayers.

Lemma setSupportedVersions_frame_witness :
  exists pkg',
    @setSupportedVersions Go.joinClean Go.asciiStrings optionsInLastLayer (packageIndexEntry.ToPackage zkEntry)
    = Ok pkg' /\
    Package.Name pkg' = "zk".
Proof.
  assert (exists pkg',
             @setSupportedVersions Go.joinClean Go.asciiStrings optionsInLastLayer
               (packageIndexEntry.ToPackage zkEntry) = Ok pkg') as [pkg' E]
      by (eexists; vm_compute; reflexivity).
  exists pkg'. split; [exact E|].
  exact (proj1 (@setSupportedVersions_frame Go.joinClean Go.asciiStrings optionsInLastLayer _ pkg' E)).
Defined.

Lemma getPackages_empty_name_witness :
  @getPackagesRun Go.joinClean Go.asciiStrings sampleJson unnamedInIndex = Panic.
Proof.
  apply (@getPackages_empty_name Go.joinClean Go.asciiStrings sampleJson
           unnamedInIndex [zkEntry; unnamedEntry] sampleLayers unnamedEntry).
  - vm_compute. reflexivity.
  - vm_compute. reflexivity.
  - done.
  - right. left.
  - reflexivity.
  - apply map_non_empty_singleton.
  - apply getPackagesRun_sound.
Defined.

Lemma getPackages_no_layers_witness :
  exists packages,
    @getPackagesRun Go.joinClean Go.asciiStrings sampleJson baseOnly = Ok packages /\
    packages = packageIndexEntry.ToPackage <$> [zkEntry].
Proof.
  assert (exists packages,
             @getPackagesRun Go.joinClean Go.asciiStrings sampleJson baseOnly = Ok packages)
    as [packages E] by (eexists; vm_compute; reflexivity).
  exists packages. split; [exact E|].
  apply (@getPackages_no_layers Go.joinClean Go.asciiStrings sampleJson baseOnly).
  - vm_compute. reflexivity.
  - left. vm_compute. reflexivity.
  - rewrite <- E. apply getPackagesRun_sound.
Defined.

Lemma setSupportedVersions_top_layer_witness :
  exists top pkg',
    top ∈ sampleLayers /\ repository.Index top <> 0 /\
    (forall layer, layer ∈ sampleLayers -> repository.Index layer <= repository.Index top) /\
    @setSupportedVersions Go.joinClean Go.asciiStrings optionsInFirstLayer (packageIndexEntry.ToPackage zkEntry)
    = Ok pkg' /\
    forall k, Package.Versions pkg' !! k
              = (fun pv => PackageVersion.withSupported
                             (@optionsPresent Go.joinClean Go.asciiStrings optionsInFirstLayer
                                (packageIndexEntry.ToPackage zkEntry) pv top) pv)
                <$> Package.Versions (packageIndexEntry.ToPackage zkEntry) !! k.
Proof.
  apply (@setSupportedVersions_top_layer Go.joinClean Go.asciiStrings optionsInFirstLayer
           (packageIndexEntry.ToPackage zkEntry) sampleLayers).
  - vm_compute. reflexivity.
  - done.
  - done.
Defined.

Lemma getPackages_entries_witness :
  exists packages,
    @getPackagesRun Go.joinClean Go.asciiStrings sampleJson optionsInLastLayer = Ok packages /\
    Forall2 (fun entry pkg =>
               Package.Name pkg = packageIndexEntry.Name entry /\
               Package.Description pkg = packageIndexEntry.Description entry /\
               Package.Framework pkg = packageIndexEntry.Framework entry /\
               Package.Tags pkg = packageIndexEntry.Tags entry /\
               forall k, (fun pv => (PackageVersion.Version pv, PackageVersion.Index pv))
                           <$> Package.Versions pkg !! k
                         = (fun index => (k, index))
                           <$> packageIndexEntry.Versions entry !! k)
            [zkEntry] packages.
Proof.
  assert (exists packages,
             @getPackagesRun Go.joinClean Go.asciiStrings sampleJson optionsInLastLayer
             = Ok packages)
    as [packages E] by (eexists; vm_compute; reflexivity).
  exists packages. split; [exact E|].
  apply (@getPackages_entries Go.joinClean Go.asciiStrings sampleJson optionsInLastLayer).
  - vm_compute. reflexivity.
  - rewrite <- E. apply getPackagesRun_sound.
Defined.

Lemma getPackages_missing_base_witness :
  @getPackagesRun Go.joinClean Go.asciiStrings sampleJson emptyStore = Ok [].
Proof.
  apply (@getPackages_missing_base Go.joinClean Go.asciiStrings sampleJson emptyStore).
  - left. reflexivity.
  - apply getPackagesRun_sound.
Defined.

Lemma getPackageByName_found_witness :
  exists pkg,
    @getPackageByNameRun Go.joinClean Go.asciiStrings sampleJson twoConfigs "ZK " = Ok (Some pkg) /\
    Go.asciiEqualFold (Go.asciiTrimSpace "ZK ") (Package.Name pkg) = true.
Proof.
  assert (exists pkg,
             @getPackageByNameRun Go.joinClean Go.asciiStrings sampleJson twoConfigs "ZK "
             = Ok (Some pkg))
    as [pkg E] by (eexists; vm_compute; reflexivity).
  exists pkg. split; [exact E|].
  apply (@getPackageByName_found Go.joinClean Go.asciiStrings sampleJson twoConfigs "ZK " pkg).
  rewrite <- E. apply getPackageByNameRun_sound.
Defined.

Lemma getPackageByName_fold_witness :
  @getPackageByName Go.joinClean Go.asciiStrings sampleJson twoConfigs " ZK"
    (@getPackageByNameRun Go.joinClean Go.asciiStrings sampleJson twoConfigs "zk").
Proof.
  apply (@getPackageByName_fold Go.joinClean Go.asciiStrings sampleJson twoConfigs "zk" " ZK").
  - intros s t H. apply bool_decide_eq_true in H. apply bool_decide_eq_true. by symmetry.
  - intros s t u H1 H2. apply bool_decide_eq_true in H1, H2. apply bool_decide_eq_true.
    by etrans.
  - reflexivity.
  - apply getPackageByNameRun_sound.
Defined.

Lemma GetPackageDefinition_fields_witness :
  exists d pkg pv,
    @GetPackageDefinitionRun Go.joinClean Go.asciiStrings sampleJson twoConfigs "ZK " "" = Ok d /\
    Package.Versions pkg !! packageDefinition.version d = Some pv /\
    packageDefinition.release d = PackageVersion.Index pv.
Proof.
  assert (exists d,
             @GetPackageDefinitionRun Go.joinClean Go.asciiStrings sampleJson twoConfigs "ZK " ""
             = Ok d)
    as [d E] by (eexists; vm_compute; reflexivity).
  destruct (@GetPackageDefinition_fields Go.joinClean Go.asciiStrings sampleJson twoConfigs
              "ZK " "" d) as (pkg & pv & _ & Hv & _ & _ & Hr & _).
  - rewrite <- E. apply GetPackageDefinitionRun_sound.
  - exists d, pkg, pv. split; [exact E|]. split; [exact Hv|exact Hr].
Defined.

(** Layer 2 names the framework in its options document, and the returned
    definition carries that name. *)
Lemma GetPackageDefinition_frameworkName_witness :
  exists d config,
    @GetPackageDefinitionRun Go.joinClean Go.asciiStrings sampleJson frameworkNamed "zk" "1.0"
    = Ok d /\
    @MergedConfig sampleJson d = Ok config /\
    config !! "framework-name" = Some (VStr "zookeeper") /\
    packageDefinition.frameworkName d = "zookeeper".
Proof.
  assert (exists d,
             @GetPackageDefinitionRun Go.joinClean Go.asciiStrings sampleJson frameworkNamed
               "zk" "1.0" = Ok d /\
             @MergedConfig sampleJson d = Ok {[ "framework-name" := VStr "zookeeper" ]})
    as (d & E & Em) by (eexists; split; [vm_compute; reflexivity|vm_compute; reflexivity]).
  destruct (@GetPackageDefinition_frameworkName Go.joinClean Go.asciiStrings sampleJson
              frameworkNamed "zk" "1.0" d) as (config & Hc & Hf).
  - rewrite <- E. apply GetPackageDefinitionRun_sound.
  - rewrite Em in Hc. injection Hc as <-.
    exists d, {[ "framework-name" := VStr "zookeeper" ]}.
    split; [exact E|]. split; [exact Em|]. split; [reflexivity|exact Hf].
Defined.

(** The three documents lie in two layers, and the assembled bundle is
    valid. *)
Lemma assemble_IsValid_witness :
  exists d,
    @assemble Go.joinClean Go.asciiStrings threeDocuments (packageIndexEntry.ToPackage zkEntry)
      (version "1.0" "3" false) sampleRepositories = Ok d /\
    packageDefinition.IsValid d = true.
Proof.
  assert (exists d,
             @assemble Go.joinClean Go.asciiStrings threeDocuments
               (packageIndexEntry.ToPackage zkEntry)
               (version "1.0" "3" false) sampleRepositories = Ok d)
    as [d E] by (eexists; vm_compute; reflexivity).
  exists d. split; [exact E|].
  apply (@assemble_IsValid Go.joinClean Go.asciiStrings threeDocuments
           (packageIndexEntry.ToPackage zkEntry)
           (version "1.0" "3" false) sampleRepositories d); [exact E| |].
  - intros H. discriminate H.
  - intros doc Hin.
    repeat (apply elem_of_cons in Hin as [->|Hin]); [| | |by apply elem_of_nil in Hin].
    + exists {| repository.Name := "base"; repository.Index := 0 |}.
      split; [left|]. vm_compute. intros H. discriminate H.
    + exists {| repository.Name := "base"; repository.Index := 0 |}.
      split; [left|]. vm_compute. intros H. discriminate H.
    + exists {| repository.Name := "first"; repository.Index := 1 |}.
      split; [right; left|]. vm_compute. intros H. discriminate H.
Defined.

End installProperties.
